(** * github_pulls: a shallow embedding of [github_pulls.py]

    The module fetches the pull requests of a GitHub repository page by
    page, asks for the issue behind each pull request, keeps the pull
    requests whose issue carries a defect label, and writes the commit
    hashes of those pull requests to three files.

    The embedding follows the Python text function by function.  Effects
    are explicit: a computation reads and changes a [World] (the network,
    the clock), appends to a log of [event]s (requests sent, text written to
    standard output, sleeps, files written) and ends in a value or in a
    raised exception.  Names that the module uses without binding them are
    resolved against the set of names the module really binds, so a
    [NameError] is a consequence of the import list and not a choice of the
    model. *)

From Stdlib Require Import ZArith String Ascii List Lia.
From stdpp Require Import base gmap strings list pretty.

Set Warnings "-register-all".
Open Scope Z_scope.

(** ** Characters that cannot be written inside a string literal *)

Definition LF : string := String "010"%char EmptyString.
Definition CR : string := String "013"%char EmptyString.
Definition dquote_char : ascii := "034"%char.
Definition DQUOTE : string := String dquote_char EmptyString.

(** ** JSON values, as [response.json()] hands them to the program

    [json.loads] yields [None], [bool], [int], [str], [list] and [dict]
    values.  Floating point numbers are left out of the model: the program
    never computes with a number it reads from a response.  A [dict] is kept
    as the list of its items in insertion order. *)

Inductive json : Type :=
| JNull
| JBool (b : bool)
| JInt (n : Z)
| JStr (s : string)
| JList (items : list json)
| JDict (fields : list (string * json)).

(** ** Exceptions *)

Inductive exn : Type :=
| NameError (name : string)
| KeyError (key : string)
| ValueError (what : string)
| TypeError (what : string)
| AttributeError (what : string)
| StatusException (code : Z)
| RequestException (what : string).

(** [StatusException c] is [Exception(response.status_code)] of [get_page];
    [RequestException] stands for whatever [requests.get] itself raises. *)

Inductive outcome (A : Type) : Type :=
| Ret (a : A)
| Raise (e : exn)
| OutOfFuel.

Arguments Ret {A} a.
Arguments Raise {A} e.
Arguments OutOfFuel {A}.

#[export] Instance outcome_ret : MRet outcome := @Ret.
#[export] Instance outcome_bind : MBind outcome :=
  fun A B f o =>
    match o with
    | Ret a => f a
    | Raise e => Raise e
    | OutOfFuel => OutOfFuel
    end.

(** ** Requests and responses *)

Record request : Type := mk_request {
  req_url : string;
  req_params : list (string * string);
  req_auth : option (string * string)
}.

(** [headers] is keyed by the lower-case header name ([requests] looks
    headers up without regard to case); [body] is [None] when the payload is
    not JSON, in which case [response.json()] raises. *)

Record response : Type := mk_response {
  status_code : Z;
  headers : gmap string string;
  body : option json
}.

Definition response_json (r : response) : outcome json :=
  match body r with
  | Some v => Ret v
  | None => Raise (ValueError "JSONDecodeError")
  end.

Definition headers_getitem (r : response) (name : string) : outcome string :=
  match headers r !! name with
  | Some v => Ret v
  | None => Raise (KeyError name)
  end.

(** ** What a run leaves behind *)

Inductive event : Type :=
| EvGet (r : request)
| EvStdout (text : string)
| EvSleep (seconds : Z)
| EvWriteFile (path content : string)
| EvJsonDump (path owner repo : string) (pull_requests : list (json * list json)).

(** ** The platform the module runs on

    Everything that is not code of the module: the network behind
    [requests.get], the clock behind [datetime.datetime.utcnow] (in
    microseconds since the epoch), [time.sleep], the rendering of a
    [datetime] by [str], the builtin [int] on strings, [str] on lists and
    dicts, the operating system family ([os.name == 'nt'] or not), and the
    value of [gh_shared.NOTE_LABEL]. *)

Record Platform : Type := mk_platform {
  World : Type;
  http_get : request -> World -> (exn + response) * World;
  utcnow : World -> Z * World;
  sleep_for : Z -> World -> World;
  str_datetime : Z -> string;
  py_int : string -> option Z;
  py_repr : json -> string;
  os_nt : bool;
  gh_shared_NOTE_LABEL : string
}.

(** [os.linesep] *)
Definition linesep (P : Platform) : string :=
  if os_nt P then CR +:+ LF else LF.

(** ** The monad of module code *)

Definition M (P : Platform) (A : Type) : Type :=
  World P -> outcome A * World P * list event.

#[export] Instance M_ret (P : Platform) : MRet (M P) :=
  fun A a w => (Ret a, w, []).

#[export] Instance M_bind (P : Platform) : MBind (M P) :=
  fun A B f m w =>
    match m w with
    | (Ret a, w1, t1) =>
        match f a w1 with
        | (o, w2, t2) => (o, w2, t1 ++ t2)
        end
    | (Raise e, w1, t1) => (Raise e, w1, t1)
    | (OutOfFuel, w1, t1) => (OutOfFuel, w1, t1)
    end.

Definition lift {P : Platform} {A : Type} (o : outcome A) : M P A :=
  fun w => (o, w, []).

Definition raise {P : Platform} {A : Type} (e : exn) : M P A :=
  lift (Raise e).

Definition out_of_fuel {P : Platform} {A : Type} : M P A :=
  lift OutOfFuel.

Definition emit {P : Platform} (ev : event) : M P unit :=
  fun w => (Ret tt, w, [ev]).

Definition stdout_write {P : Platform} (text : string) : M P unit :=
  emit (EvStdout text).

Definition requests_get {P : Platform} (url : string)
    (params : list (string * string)) (auth : option (string * string))
  : M P response :=
  fun w =>
    let rq := mk_request url params auth in
    match http_get P rq w with
    | (inl e, w') => (Raise e, w', [EvGet rq])
    | (inr r, w') => (Ret r, w', [EvGet rq])
    end.

Definition datetime_utcnow {P : Platform} : M P Z :=
  fun w => match utcnow P w with (t, w') => (Ret t, w', []) end.

(** [time.sleep] refuses a negative duration. *)
Definition time_sleep {P : Platform} (seconds : Z) : M P unit :=
  if seconds <? 0 then raise (ValueError "sleep length must be non-negative")
  else fun w => (Ret tt, sleep_for P seconds w, [EvSleep seconds]).

(** ** Global names

    The names bound at module level when a function of the module runs:
    the imports of lines 42 to 51, the constants of lines 53 to 63, the
    class [AuthType] and the functions. *)

Definition module_globals : gset string :=
  list_to_set
    [ "sys"; "os"; "requests"; "argparse"; "configparser"; "re"; "json";
      "csv"; "Enum"; "unique";
      "VERBOSE"; "REPO_BASE"; "PARAMS"; "ERR_LABEL"; "NOTE_LABEL";
      "ERR_INDENT"; "NOTE_INDENT"; "EXITING_STR"; "DEFECTS"; "AuthType";
      "is_verbose"; "get_params"; "is_defect"; "wait_it_out"; "get_page";
      "download_pulls"; "get_pull_requests"; "get_commits_by_url";
      "get_commits_by_pull_num"; "get_commits_by_pull"; "analyze_pulls";
      "load_config_data"; "get_auth" ]%string.

(** Reading a global name: none of the names looked up this way is a
    builtin, so a name that is not bound in the module raises. *)
Definition lookup_name {P : Platform} (g : gset string) (name : string)
  : M P unit :=
  if decide (name ∈ g) then mret tt else raise (NameError name).

(** ** Module constants *)

Definition VERBOSE : bool := true.
Definition REPO_BASE : string := "https://api.github.com/repos/".
Definition PARAMS : list (string * string) :=
  [("state", "all"); ("per_page", "100")]%string.
Definition NOTE_LABEL : string := "NOTE: ".
Definition NOTE_INDENT : string := "      ".
Definition DEFECTS : gset string :=
  list_to_set [ "bug"; "defect"; "kind/bug" ]%string.

(** ** [wait_it_out] (lines 114 to 141)

    [fstrlst[1]] starts as the placeholder of the minutes, [{2}], and is
    overwritten with [{1:0.2f}] the first time a minute or less remains.
    That placeholder formats argument 1, the message, as a float. *)

Inductive minutes_placeholder : Type :=
| PlaceMins       (* {2} *)
| PlaceMsgFloat.  (* {1:0.2f} *)

(** [fstr.format(gh_shared.NOTE_LABEL, msg, mins)] with [mins] the whole
    minutes.  A [str] argument has no [f] presentation, so the second
    placeholder makes [format] raise whatever [mins] is. *)
Definition format_notice (place : minutes_placeholder)
    (label msg : string) (whole_mins : Z) : outcome string :=
  match place with
  | PlaceMins =>
      Ret (label +:+ msg +:+ LF +:+ "      " +:+ pretty whole_mins
             +:+ " minutes remaining..." +:+ LF)
  | PlaceMsgFloat =>
      Raise (ValueError "Unknown format code 'f' for object of type 'str'")
  end.

(** The [while total_wait >= 0] loop.  [n] bounds the number of
    iterations; [wait_it_out] below passes a bound the loop never
    reaches. *)
Fixpoint wait_loop {P : Platform} (g : gset string) (n : nat) (msg : string)
    (total_wait : Z) (place : minutes_placeholder) : M P unit :=
  match n with
  | O => out_of_fuel
  | S n' =>
      if total_wait >=? 0 then
        let place' := if total_wait >? 60 then place else PlaceMsgFloat in
        _ ← lookup_name g "gh_shared";
        text ← lift (format_notice place' (gh_shared_NOTE_LABEL P) msg
                       (total_wait / 60));
        _ ← stdout_write text;
        _ ← lookup_name g "sleep";
        _ ← time_sleep (if total_wait >? 240 then 240 else total_wait);
        wait_loop g n' msg (total_wait - 240) place'
      else mret tt
  end.

Definition wait_iterations (total_wait : Z) : nat :=
  S (Z.to_nat (total_wait / 240 + 1)).

Definition wait_it_out {P : Platform} (g : gset string) (msg : string)
    (total_wait : Z) : M P unit :=
  let total_wait := total_wait + 15 in
  _ ← wait_loop g (wait_iterations total_wait) msg total_wait PlaceMins;
  _ ← lookup_name g "gh_shared";
  stdout_write (gh_shared_NOTE_LABEL P
                  +:+ "Wait completed, continuing execution..." +:+ LF).

(** ** [get_page] (lines 144 to 172)

    [(reset_at - datetime.datetime.utcnow()).seconds]: the seconds field of
    a normalised [timedelta], between 0 and 86399 whatever the sign of the
    difference.  Times are in microseconds. *)

Definition timedelta_seconds (delta_us : Z) : Z :=
  (delta_us / 1000000) mod 86400.

Definition parse_int (P : Platform) (s : string) : outcome Z :=
  match py_int P s with
  | Some n => Ret n
  | None => Raise (ValueError "invalid literal for int() with base 10")
  end.

(** The function calls itself after a wait; [fuel] bounds the depth of
    that recursion. *)
Fixpoint get_page {P : Platform} (g : gset string) (fuel : nat)
    (url : string) (params : list (string * string))
    (auth : option (string * string)) : M P response :=
  match fuel with
  | O => out_of_fuel
  | S fuel' =>
      response ← requests_get url params auth;
      remaining ← lift (headers_getitem response "x-ratelimit-remaining");
      if String.eqb remaining "0" then
        _ ← stdout_write ("Rate Limit Hit, waiting for reset..." +:+ LF);
        reset_s ← lift (headers_getitem response "x-ratelimit-reset");
        reset ← lift (parse_int P reset_s);
        _ ← lookup_name g "datetime";
        let reset_at := reset * 1000000 in
        _ ← lookup_name g "datetime";
        now ← datetime_utcnow;
        let wait_time := timedelta_seconds (reset_at - now) in
        _ ← stdout_write ("Resets at: " +:+ str_datetime P reset_at +:+ LF);
        _ ← lookup_name g "datetime";
        now' ← datetime_utcnow;
        _ ← stdout_write ("Currently: " +:+ str_datetime P now' +:+ LF);
        _ ← stdout_write ("Waiting:   " +:+ pretty (wait_time / 60)
                            +:+ " minutes" +:+ LF);
        _ ← wait_it_out g "Rate Limit Hit" wait_time;
        get_page g fuel' url params auth
      else if status_code response =? 200 then mret response
      else raise (StatusException (status_code response))
  end.

(** ** Python operations on the values of a response *)

Fixpoint dict_lookup (key : string) (fields : list (string * json))
  : option json :=
  match fields with
  | [] => None
  | (k, v) :: rest => if String.eqb k key then Some v else dict_lookup key rest
  end.

(** [v[key]] with [key] a [str]. *)
Definition py_getitem (v : json) (key : string) : outcome json :=
  match v with
  | JDict fields =>
      match dict_lookup key fields with
      | Some x => Ret x
      | None => Raise (KeyError key)
      end
  | JList _ => Raise (TypeError "list indices must be integers or slices, not str")
  | JStr _ => Raise (TypeError "string indices must be integers")
  | _ => Raise (TypeError "object is not subscriptable")
  end.

(** [v.get(key, default)]: only a [dict] has the method. *)
Definition py_dict_get (v : json) (key : string) (default : json)
  : outcome json :=
  match v with
  | JDict fields =>
      match dict_lookup key fields with
      | Some x => Ret x
      | None => Ret default
      end
  | _ => Raise (AttributeError "get")
  end.

(** The items a [for] loop or [list.extend] sees: the elements of a list,
    the keys of a dict, the characters of a string. *)
Definition py_iter (v : json) : outcome (list json) :=
  match v with
  | JList items => Ret items
  | JDict fields => Ret (map (fun kv => JStr (fst kv)) fields)
  | JStr s =>
      Ret (map (fun c => JStr (String c EmptyString)) (list_ascii_of_string s))
  | _ => Raise (TypeError "object is not iterable")
  end.

Definition py_hashable (v : json) : bool :=
  match v with
  | JList _ | JDict _ => false
  | _ => true
  end.

(** [==] between hashable values: [True == 1] and [False == 0]. *)
Definition key_norm (v : json) : json :=
  match v with
  | JBool true => JInt 1
  | JBool false => JInt 0
  | _ => v
  end.

Definition py_key_eqb (a b : json) : bool :=
  match key_norm a, key_norm b with
  | JNull, JNull => true
  | JInt m, JInt n => m =? n
  | JStr s, JStr t => String.eqb s t
  | _, _ => false
  end.

(** [requests.get] turns its URL into a string and refuses one without a
    scheme, which is what becomes of every value that is not a string. *)
Definition as_url (v : json) : outcome string :=
  match v with
  | JStr s => Ret s
  | _ => Raise (RequestException "MissingSchema")
  end.

(** [str(v)], as [format] and the [csv] writer apply it. *)
Definition py_str (P : Platform) (v : json) : string :=
  match v with
  | JNull => "None"
  | JBool true => "True"
  | JBool false => "False"
  | JInt n => pretty n
  | JStr s => s
  | _ => py_repr P v
  end.

(** ** The [link] header (lines 196 to 199) *)

Fixpoint py_split (sep : ascii) (s : string) : list string :=
  match s with
  | EmptyString => [EmptyString]
  | String c rest =>
      if Ascii.eqb c sep then EmptyString :: py_split sep rest
      else match py_split sep rest with
           | [] => [String c EmptyString]
           | w :: ws => String c w :: ws
           end
  end.

Fixpoint py_index (c : ascii) (s : string) : option nat :=
  match s with
  | EmptyString => None
  | String d rest =>
      if Ascii.eqb d c then Some O else S <$> py_index c rest
  end.

(** [s[i:-1]] *)
Definition slice_to_last (i : nat) (s : string) : string :=
  substring i (String.length s - 1 - i) s.

(** One element of the comprehension: [ref, reln = refs.split(';')], then
    [(reln[6:-1], ref[ref.index('<')+1:-1])]. *)
Definition link_entry (refs : string) : outcome (string * string) :=
  match py_split ";" refs with
  | [ref; reln] =>
      match py_index "<" ref with
      | Some i => Ret (slice_to_last 6 reln, slice_to_last (S i) ref)
      | None => Raise (ValueError "substring not found")
      end
  | _ => Raise (ValueError "wrong number of values to unpack")
  end.

Fixpoint link_entries (parts : list string) : outcome (list (string * string)) :=
  match parts with
  | [] => Ret []
  | refs :: rest =>
      e ← link_entry refs;
      es ← link_entries rest;
      Ret (e :: es)
  end.

(** [dict(pairs)]: a later pair replaces an earlier one with the same key. *)
Definition py_dict_of (pairs : list (string * string)) : gmap string string :=
  foldl (fun m kv => <[fst kv := snd kv]> m) ∅ pairs.

Definition parse_link (header : string) : outcome (gmap string string) :=
  es ← link_entries (py_split "," header);
  Ret (py_dict_of es).

(** The value of [url] at the end of one iteration of [download_pulls]. *)
Definition next_url (r : response) : outcome (option string) :=
  match headers r !! "link" with
  | Some header =>
      pages ← parse_link header;
      match pages !! "last", pages !! "next" with
      | Some _, Some next => Ret (Some next)
      | _, _ => Ret None
      end
  | None => Ret None
  end.

(** ** [download_pulls] (lines 175 to 206)

    One iteration of the [while url is not None] loop per unit of [fuel];
    the same bound serves the retries of [get_page]. *)

Fixpoint download_loop {P : Platform} (g : gset string) (fuel : nat)
    (url : option string) (params : list (string * string))
    (auth : option (string * string))
    (pull_reqs : list json) (total_recs : Z) : M P (list json) :=
  match url with
  | None => mret pull_reqs
  | Some u =>
      match fuel with
      | O => out_of_fuel
      | S fuel' =>
          response ← get_page g fuel u params auth;
          pull_list ← lift (response_json response);
          items ← lift (py_iter pull_list);
          let pull_reqs := pull_reqs ++ items in
          let num_pulls := Z.of_nat (length items) in
          let total_recs := total_recs + num_pulls in
          _ ← stdout_write ("Processing " +:+ pretty num_pulls
                              +:+ " issues/pull requests, for "
                              +:+ pretty total_recs +:+ " total" +:+ LF);
          next ← lift (next_url response);
          download_loop g fuel' next params auth pull_reqs total_recs
      end
  end.

Definition download_pulls {P : Platform} (g : gset string) (fuel : nat)
    (url : string) (params : list (string * string))
    (auth : option (string * string)) : M P (list json) :=
  download_loop g fuel (Some url) params auth [] 0.

(** ** [get_pull_requests] (lines 209 to 227) *)

Definition get_pull_requests {P : Platform} (g : gset string) (fuel : nat)
    (owner repo : string) (params : list (string * string))
    (auth : option (string * string)) : M P (list json) :=
  download_pulls g fuel (REPO_BASE +:+ owner +:+ "/" +:+ repo +:+ "/pulls")
    params auth.

(** ** [is_defect] (lines 91 to 112) *)

Fixpoint label_names_of (labels : list json) : outcome (list json) :=
  match labels with
  | [] => Ret []
  | l :: rest =>
      name ← py_getitem l "name";
      names ← label_names_of rest;
      Ret (name :: names)
  end.

Definition json_string (v : json) : option string :=
  match v with
  | JStr s => Some s
  | _ => None
  end.

(** [set(label_names)] needs every name hashable.  [DEFECTS] holds strings
    only, so the intersection is decided by the names that are strings. *)
Definition py_set_of (names : list json) : outcome (gset string) :=
  if forallb py_hashable names then Ret (list_to_set (omap json_string names))
  else Raise (TypeError "unhashable type").

Definition is_defect {P : Platform} (g : gset string) (fuel : nat)
    (pull_req : json) (params : list (string * string))
    (auth : option (string * string)) : M P bool :=
  issue_url ← lift (py_getitem pull_req "issue_url");
  url ← lift (as_url issue_url);
  issue ← get_page g fuel url params auth;
  issue_json ← lift (response_json issue);
  labels ← lift (py_dict_get issue_json "labels" (JList []));
  label_list ← lift (py_iter labels);
  label_names ← lift (label_names_of label_list);
  names ← lift (py_set_of label_names);
  let isect := DEFECTS ∩ names in
  if decide (isect = ∅) then mret false else mret true.

(** ** [get_commits_by_url], [get_commits_by_pull_num],
       [get_commits_by_pull] (lines 230 to 288) *)

Fixpoint commit_shas_of (commits : list json) : outcome (list json) :=
  match commits with
  | [] => Ret []
  | c :: rest =>
      sha ← py_getitem c "sha";
      shas ← commit_shas_of rest;
      Ret (sha :: shas)
  end.

Definition get_commits_by_url {P : Platform} (g : gset string) (fuel : nat)
    (commits_url : string) (params : list (string * string))
    (auth : option (string * string)) : M P (list json) :=
  response ← get_page g fuel commits_url params auth;
  commits ← lift (response_json response);
  commit_list ← lift (py_iter commits);
  lift (commit_shas_of commit_list).

Definition get_commits_by_pull_num {P : Platform} (g : gset string)
    (fuel : nat) (pull_num : Z) (owner repo : string)
    (params : list (string * string)) (auth : option (string * string))
  : M P (list json) :=
  get_commits_by_url g fuel
    (REPO_BASE +:+ owner +:+ "/" +:+ repo +:+ "/pulls/" +:+ pretty pull_num
       +:+ "/commits")
    params auth.

Definition get_commits_by_pull {P : Platform} (g : gset string) (fuel : nat)
    (pull : json) (params : list (string * string))
    (auth : option (string * string)) : M P (list json) :=
  commits_url ← lift (py_getitem pull "commits_url");
  url ← lift (as_url commits_url);
  get_commits_by_url g fuel url params auth.

(** ** The dict [pull_commits]

    A Python dict keeps its keys in the order of their first insertion;
    assigning to a key that is present replaces the value in place. *)

Definition pydict : Type := list (json * list json).

Fixpoint dict_assign (k : json) (v : list json) (d : pydict) : pydict :=
  match d with
  | [] => [(k, v)]
  | (k', v') :: rest =>
      if py_key_eqb k' k then (k', v) :: rest
      else (k', v') :: dict_assign k v rest
  end.

Definition dict_setitem (k : json) (v : list json) (d : pydict)
  : outcome pydict :=
  if py_hashable k then Ret (dict_assign k v d)
  else Raise (TypeError "unhashable type").

(** ** The output files (lines 338 to 364) *)

(** A file opened in text mode writes [os.linesep] for every line feed. *)
Fixpoint text_mode (P : Platform) (s : string) : string :=
  match s with
  | EmptyString => EmptyString
  | String c rest =>
      if Ascii.eqb c "010" then linesep P +:+ text_mode P rest
      else String c (text_mode P rest)
  end.

Definition txt_content (P : Platform) (shas : list json) : string :=
  String.concat EmptyString
    (map (fun s => text_mode P (py_str P s +:+ LF)) shas).

(** [csv.writer] with [QUOTE_MINIMAL], the default delimiter and quote
    character, and [lineterminator=os.linesep]: a field is quoted when it
    holds the delimiter, the quote character or a character of the line
    terminator; inside quotes a quote character is doubled.  [None] is
    written as the empty field, any other value through [str]. *)

Fixpoint string_mem (c : ascii) (s : string) : bool :=
  match s with
  | EmptyString => false
  | String d rest => Ascii.eqb d c || string_mem c rest
  end.

Fixpoint csv_special (terminator : string) (field : string) : bool :=
  match field with
  | EmptyString => false
  | String c rest =>
      Ascii.eqb c "," || Ascii.eqb c dquote_char || string_mem c terminator
      || csv_special terminator rest
  end.

Fixpoint csv_double_quotes (field : string) : string :=
  match field with
  | EmptyString => EmptyString
  | String c rest =>
      if Ascii.eqb c dquote_char
      then String c (String c (csv_double_quotes rest))
      else String c (csv_double_quotes rest)
  end.

Definition csv_field (terminator : string) (field : string) : string :=
  if csv_special terminator field
  then DQUOTE +:+ csv_double_quotes field +:+ DQUOTE
  else field.

Definition csv_str (P : Platform) (v : json) : string :=
  match v with
  | JNull => EmptyString
  | _ => py_str P v
  end.

Definition csv_writerow (P : Platform) (fields : list json) : string :=
  String.concat "," (map (fun v => csv_field (linesep P) (csv_str P v)) fields)
    +:+ linesep P.

Definition csv_rows_of (P : Platform) (owner repo : string)
    (entry : json * list json) : list string :=
  map (fun s => csv_writerow P [fst entry; s; JStr owner; JStr repo])
      (snd entry).

Definition csv_content (P : Platform) (owner repo : string)
    (pull_commits : pydict) : string :=
  csv_writerow P [JStr "Pull"; JStr "Commit-SHA"; JStr "Owner"; JStr "Repo"]
    +:+ String.concat EmptyString
          (concat (map (csv_rows_of P owner repo) pull_commits)).

(** ** [analyze_pulls] (lines 292 to 368) *)

(** Lines 318 to 324, with [progress] the counter before the pull. *)
Definition progress_tick {P : Platform} (progress : Z) : M P Z :=
  _ ← (if progress / 10 >? 0 then stdout_write "*" else mret tt);
  let progress := progress + 1 in
  if progress =? 71 then
    _ ← stdout_write LF;
    mret 0
  else mret progress.

(** The [for p in pulls] loop of lines 317 to 332. *)
Fixpoint classify_loop {P : Platform} (g : gset string) (fuel : nat)
    (pulls : list json) (params : list (string * string))
    (auth : option (string * string))
    (progress : Z) (shas : list json) (pull_commits : pydict)
  : M P (list json * pydict) :=
  match pulls with
  | [] => mret (shas, pull_commits)
  | p :: rest =>
      progress ← (if VERBOSE then progress_tick progress else mret progress);
      defect ← is_defect g fuel p params auth;
      if (defect : bool) then
        commits ← get_commits_by_pull g fuel p params auth;
        let shas := shas ++ commits in
        number ← lift (py_getitem p "number");
        pull_commits ← lift (dict_setitem number commits pull_commits);
        classify_loop g fuel rest params auth progress shas pull_commits
      else
        classify_loop g fuel rest params auth progress shas pull_commits
  end.

Definition write_outputs {P : Platform} (owner repo : string)
    (shas : list json) (pull_commits : pydict) : M P unit :=
  _ ← emit (EvWriteFile ("./" +:+ repo +:+ "_pulls.txt") (txt_content P shas));
  _ ← emit (EvWriteFile ("./" +:+ repo +:+ "_pulls.csv")
              (csv_content P owner repo pull_commits));
  emit (EvJsonDump ("./" +:+ repo +:+ "_pulls.json") owner repo pull_commits).

Definition analyze_pulls {P : Platform} (g : gset string) (fuel : nat)
    (owner repo : string) (params : list (string * string))
    (auth : option (string * string)) : M P (list json) :=
  pulls ← get_pull_requests g fuel owner repo params auth;
  _ ← stdout_write (NOTE_LABEL
                      +:+ "Checking for defects associated with pull requests."
                      +:+ LF +:+ NOTE_INDENT
                      +:+ "This might take a bit of time..." +:+ LF);
  res ← classify_loop g fuel pulls params auth 0 [] [];
  _ ← (if VERBOSE then stdout_write LF else mret tt);
  _ ← write_outputs owner repo res.1 res.2;
  mret res.1.

(** ** Two concrete platforms

    [scripted] answers the n-th request with the n-th response of a script,
    whatever is asked; [site serve] answers by URL.  Both run on a POSIX
    system, read decimal integers, and keep a clock that only [time.sleep]
    advances. *)

Definition dec_digit (c : ascii) : option Z :=
  let n := Z.of_nat (nat_of_ascii c) in
  if (48 <=? n) && (n <=? 57) then Some (n - 48) else None.

Fixpoint dec_int_from (acc : Z) (s : string) : option Z :=
  match s with
  | EmptyString => Some acc
  | String c rest =>
      match dec_digit c with
      | Some d => dec_int_from (10 * acc + d) rest
      | None => None
      end
  end.

Definition dec_int (s : string) : option Z :=
  match s with
  | EmptyString => None
  | _ => dec_int_from 0 s
  end.

Record lab_world : Type := mk_lab {
  script : list response;
  clock : Z
}.

Definition scripted : Platform := {|
  World := lab_world;
  http_get := fun _ w =>
    match script w with
    | [] => (inl (RequestException "ConnectionError"), w)
    | r :: rest => (inr r, mk_lab rest (clock w))
    end;
  utcnow := fun w => (clock w, w);
  sleep_for := fun s w => mk_lab (script w) (clock w + s * 1000000);
  str_datetime := pretty;
  py_int := dec_int;
  py_repr := fun _ => "<repr>";
  os_nt := false;
  gh_shared_NOTE_LABEL := "NOTE: "
|}.

Definition site (serve : string -> option response) : Platform := {|
  World := Z;
  http_get := fun rq w =>
    match serve (req_url rq) with
    | Some r => (inr r, w)
    | None => (inl (RequestException "ConnectionError"), w)
    end;
  utcnow := fun w => (w, w);
  sleep_for := fun s w => w + s * 1000000;
  str_datetime := pretty;
  py_int := dec_int;
  py_repr := fun _ => "<repr>";
  os_nt := false;
  gh_shared_NOTE_LABEL := "NOTE: "
|}.

Definition requests_of (tr : list event) : list request :=
  omap (fun e => match e with EvGet r => Some r | _ => None end) tr.

Definition sleeps_of (tr : list event) : list Z :=
  omap (fun e => match e with EvSleep s => Some s | _ => None end) tr.

Definition stdout_of (tr : list event) : list string :=
  omap (fun e => match e with EvStdout s => Some s | _ => None end) tr.

(** ** What the statements below speak of *)

(** The exception [get_page] ends in when the rate limit is exhausted:
    line 161 reads and parses the reset header, line 162 reads the name
    [datetime]. *)
Definition rate_limit_error (P : Platform) (r : response) : exn :=
  match headers r !! "x-ratelimit-reset" with
  | None => KeyError "x-ratelimit-reset"
  | Some s =>
      match py_int P s with
      | None => ValueError "invalid literal for int() with base 10"
      | Some _ => NameError "datetime"
      end
  end.

Definition is_name_error (e : exn) : bool :=
  match e with
  | NameError _ => true
  | _ => false
  end.

(** Responses for the examples. *)
Definition resp (code : Z) (hs : list (string * string)) (b : option json)
  : response :=
  mk_response code (list_to_map hs) b.

Definition open_headers : list (string * string) :=
  [("x-ratelimit-remaining", "4999"); ("x-ratelimit-reset", "1700000000")]%string.

Definition limited_headers : list (string * string) :=
  [("x-ratelimit-remaining", "0"); ("x-ratelimit-reset", "1700000000")]%string.

Definition pulls_url : string := "https://api.github.com/repos/o/r/pulls".

(** A page [download_pulls] takes in: status 200, requests left, and a
    JSON list of records as its body. *)
Definition page_of (r : response) (records : list json) : Prop :=
  status_code r = 200
  /\ (exists v, headers r !! "x-ratelimit-remaining" = Some v /\ v ≠ "0")
  /\ body r = Some (JList records).

(** The link header of [r] has a [last] relation and the [next] relation
    [next]. *)
Definition links_to (r : response) (next : string) : Prop :=
  exists header pages,
    headers r !! "link" = Some header
    /\ parse_link header = Ret pages
    /\ is_Some (pages !! "last")
    /\ pages !! "next" = Some next.

(** [r] has no link header, or one that lacks [next] or lacks [last]. *)
Definition last_page (r : response) : Prop :=
  headers r !! "link" = None
  \/ exists header pages,
       headers r !! "link" = Some header
       /\ parse_link header = Ret pages
       /\ (pages !! "next" = None \/ pages !! "last" = None).

(** [serves P params auth w urls pages w']: asked for the first of [urls]
    in world [w], the network answers with the first of [pages]; each page
    but the last links to the next URL, which is asked next; the last page
    leaves the world [w']. *)
Inductive serves (P : Platform) (params : list (string * string))
    (auth : option (string * string))
  : World P -> list string -> list (response * list json) -> World P -> Prop :=
| serves_last w url r records w' :
    http_get P (mk_request url params auth) w = (inr r, w') ->
    page_of r records ->
    last_page r ->
    serves P params auth w [url] [(r, records)] w'
| serves_next w url r records w1 next urls pages w' :
    http_get P (mk_request url params auth) w = (inr r, w1) ->
    page_of r records ->
    links_to r next ->
    serves P params auth w1 (next :: urls) pages w' ->
    serves P params auth w (url :: next :: urls) ((r, records) :: pages) w'.

(** One entry of a link header, as GitHub writes it. *)
Definition rel (url name : string) : string :=
  "<" +:+ url +:+ ">; rel=" +:+ DQUOTE +:+ name +:+ DQUOTE.

Definition page2_url : string :=
  "https://api.github.com/repos/o/r/pulls?page=2".

Definition first_page : response :=
  resp 200
    (("link", rel page2_url "next" +:+ ", " +:+ rel page2_url "last")
       :: open_headers)
    (Some (JList [JInt 1; JInt 2])).

Definition second_page : response :=
  resp 200
    (("link", rel pulls_url "prev" +:+ ", " +:+ rel pulls_url "first")
       :: open_headers)
    (Some (JList [JInt 3])).

(** [r] reaches the caller of [get_page] with the JSON value [v]. *)
Definition delivers (r : response) (v : json) : Prop :=
  status_code r = 200
  /\ (exists h, headers r !! "x-ratelimit-remaining" = Some h /\ h ≠ "0")
  /\ body r = Some v.

(** The labels of an issue: none when the field is absent. *)
Definition issue_labels (issue : json) (labels : list json) : Prop :=
  exists fields,
    issue = JDict fields
    /\ ((dict_lookup "labels" fields = None /\ labels = [])
        \/ dict_lookup "labels" fields = Some (JList labels)).

Definition label_named (l : json) (n : string) : Prop :=
  py_getitem l "name" = Ret (JStr n).

Definition label (n : string) : json :=
  JDict [("id", JInt 7); ("name", JStr n)]%string.

Definition issue1_url : string := "https://api.github.com/repos/o/r/issues/1".
Definition commits1_url : string :=
  "https://api.github.com/repos/o/r/pulls/1/commits".

Definition pull1 : json :=
  JDict [("number", JInt 1); ("issue_url", JStr issue1_url);
         ("commits_url", JStr commits1_url)]%string.

Definition issue1 : response :=
  resp 200 open_headers
    (Some (JDict [("labels", JList [label "ui"; label "bug"])]%string)).

(** ** The classification loop, pull by pull *)

(** No key of [d] equals, as Python compares keys, a key after it. *)
Fixpoint distinct_keys (d : pydict) : bool :=
  match d with
  | [] => true
  | (k, _) :: rest =>
      forallb (fun e => negb (py_key_eqb k (fst e))) rest && distinct_keys rest
  end.

(** The assignments [d[k] = v] for the entries of [entries], in order. *)
Definition assign_all (d : pydict) (entries : pydict) : pydict :=
  foldl (fun d e => dict_assign (fst e) (snd e) d) d entries.

(** [classifies P g fuel params auth w pulls sel w']: going through
    [pulls] from world [w], [is_defect] answers for every pull; [sel] lists,
    in the order of [pulls], the number and the commits of each pull it
    answers [True] for, the commits as [get_commits_by_pull] returns them;
    the last call leaves the world [w']. *)
Inductive classifies (P : Platform) (g : gset string) (fuel : nat)
    (params : list (string * string)) (auth : option (string * string))
  : World P -> list json -> pydict -> World P -> Prop :=
| classifies_nil w :
    classifies P g fuel params auth w [] [] w
| classifies_skip w p w1 t rest sel w' :
    is_defect g fuel p params auth w = (Ret false, w1, t) ->
    classifies P g fuel params auth w1 rest sel w' ->
    classifies P g fuel params auth w (p :: rest) sel w'
| classifies_take w p w1 t1 commits w2 t2 number rest sel w' :
    is_defect g fuel p params auth w = (Ret true, w1, t1) ->
    get_commits_by_pull g fuel p params auth w1 = (Ret commits, w2, t2) ->
    py_getitem p "number" = Ret number ->
    py_hashable number = true ->
    classifies P g fuel params auth w2 rest sel w' ->
    classifies P g fuel params auth w (p :: rest) ((number, commits) :: sel) w'.

(** A small repository: pull 1 fixes a bug in two commits, pull 2 is an
    enhancement, pull 3 fixes a bug in one commit. *)
Definition commit (sha : string) : json :=
  JDict [("sha", JStr sha); ("url", JStr "https://api.github.com/x")]%string.

Definition issue2_url : string := "https://api.github.com/repos/o/r/issues/2".
Definition commits2_url : string :=
  "https://api.github.com/repos/o/r/pulls/2/commits".
Definition issue3_url : string := "https://api.github.com/repos/o/r/issues/3".
Definition commits3_url : string :=
  "https://api.github.com/repos/o/r/pulls/3/commits".

Definition pull2 : json :=
  JDict [("number", JInt 2); ("issue_url", JStr issue2_url);
         ("commits_url", JStr commits2_url)]%string.

Definition pull3 : json :=
  JDict [("number", JInt 3); ("issue_url", JStr issue3_url);
         ("commits_url", JStr commits3_url)]%string.

Definition hub_pages : list (string * response) :=
  [ (pulls_url, resp 200 open_headers (Some (JList [pull1; pull2; pull3])));
    (issue1_url, issue1);
    (commits1_url,
     resp 200 open_headers (Some (JList [commit "c1"; commit "c2"])));
    (issue2_url,
     resp 200 open_headers
       (Some (JDict [("labels", JList [label "enhancement"])]%string)));
    (issue3_url,
     resp 200 open_headers
       (Some (JDict [("labels", JList [label "kind/bug"])]%string)));
    (commits3_url, resp 200 open_headers (Some (JList [commit "c3"]))) ].

Fixpoint lookup_page (pages : list (string * response)) (url : string)
  : option response :=
  match pages with
  | [] => None
  | (u, r) :: rest => if String.eqb u url then Some r else lookup_page rest url
  end.

Definition hub : Platform := site (lookup_page hub_pages).

(** ** Progress markers (lines 315 to 324)

    What the loop writes for the pull of index [i], counting from 0. *)
Definition pull_markers (i : Z) : list string :=
  (if 10 <=? i mod 71 then ["*"%string] else [])
  ++ (if i mod 71 =? 70 then [LF] else []).

Definition markers_for (n : nat) : list string :=
  flat_map pull_markers (map Z.of_nat (seq 0 n)).

Definition count_text (text : string) (out : list string) : Z :=
  Z.of_nat (count_occ String.string_dec out text).

(** ** Reading the mapping and the files *)

(** [d[k]] on the mapping, [None] when the key is absent (line 351). *)
Fixpoint py_dict_lookup (k : json) (d : pydict) : option (list json) :=
  match d with
  | [] => None
  | (k', v) :: rest => if py_key_eqb k' k then Some v else py_dict_lookup k rest
  end.

(** A field the CSV writer leaves unquoted on every platform: no comma, no
    quote character, no carriage return, no line feed. *)
Definition csv_plain (field : string) : bool :=
  negb (csv_special (CR +:+ LF) field).

Definition plain_mapping (P : Platform) (pull_commits : pydict) : bool :=
  forallb (fun e => csv_plain (csv_str P (fst e))
                    && forallb (fun s => csv_plain (csv_str P s)) (snd e))
          pull_commits.

(** The rows of the mapping, field by field. *)
Definition csv_rows (P : Platform) (owner repo : string)
    (pull_commits : pydict) : list (list string) :=
  flat_map (fun e => map (fun s => [csv_str P (fst e); csv_str P s; owner; repo])
                         (snd e))
           pull_commits.

Definition no_line_feed (s : string) : bool := negb (string_mem "010" s).

(** A second record carrying the number of pull 1. *)
Definition pull1_again : json :=
  JDict [("number", JInt 1); ("issue_url", JStr issue3_url);
         ("commits_url", JStr commits3_url)]%string.

(** ** The module with its missing imports added

    [datetime], [sleep] and [gh_shared] bound as the code expects them:
    what the rate-limit path does once the [NameError]s are out of the
    way. *)
Definition patched_globals : gset string :=
  module_globals ∪ list_to_set ["datetime"; "gh_shared"; "sleep"]%string.

(** The world after a sequence of sleeps. *)
Definition sleep_all (P : Platform) (sleeps : list Z) (w : World P) : World P :=
  foldl (fun w s => sleep_for P s w) w sleeps.

Definition format_error : exn :=
  ValueError "Unknown format code 'f' for object of type 'str'".





(** ** Link headers as GitHub writes them *)

(** The header for the relations [links], each a pair of a relation name
    and a URL. *)
Definition link_header (links : list (string * string)) : string :=
  String.concat ", " (map (fun l => rel (snd l) (fst l)) links).

(** Neither a comma nor a semicolon occurs in [s]. *)
Definition no_separator (s : string) : bool :=
  negb (string_mem "," s) && negb (string_mem ";" s).

(** A page whose link header is a bare reference, with no relation. *)
Definition bare_link_page : response :=
  resp 200 (("link", "<" +:+ page2_url +:+ ">") :: open_headers)
    (Some (JList [JInt 1])).

(** ** Commits of a pull request *)

Definition has_sha (c sha : json) : Prop := py_getitem c "sha" = Ret sha.

(** [serves_until P params auth w url pages pending w']: from world [w] the
    network serves [pages] starting at [url], each page accepted and linking
    to the next; [pending] is the URL the last of them links to ([url]
    itself when there is no page) and [w'] the world it is asked in. *)
Inductive serves_until (P : Platform) (params : list (string * string))
    (auth : option (string * string))
  : World P -> string -> list (response * list json) -> string -> World P
    -> Prop :=
| serves_until_here w url :
    serves_until P params auth w url [] url w
| serves_until_next w url r records w1 next pages pending w' :
    http_get P (mk_request url params auth) w = (inr r, w1) ->
    page_of r records ->
    links_to r next ->
    serves_until P params auth w1 next pages pending w' ->
    serves_until P params auth w url ((r, records) :: pages) pending w'.

(** ** Files *)



(** ** [AuthType], [load_config_data] and [get_auth] (lines 67 to 71 and
       371 to 421)

    These functions read a configuration file and write to standard error;
    they end by returning, by raising, or in [sys.exit].  What
    [configparser] makes of the file is given from outside: [config_read
    path] is an exception when [config.read] raises one (a file that does
    not parse), [None] when it returns the empty list (a file that cannot be
    opened), and otherwise the [DEFAULT] section it has read.  A section
    answers [cfg[key]] with [None] when it has no such option ([KeyError])
    and with the value otherwise, a string or Python's [None]. *)

Inductive AuthType : Type := oauth | pwd.

Definition AuthType_value (a : AuthType) : Z :=
  match a with
  | oauth => 1
  | pwd => 2
  end.

(** [auth_t is AuthType.pwd] *)
Definition AuthType_is (a b : AuthType) : bool :=
  AuthType_value a =? AuthType_value b.

(** [str(auth_t)] *)
Definition AuthType_str (a : AuthType) : string :=
  match a with
  | oauth => "AuthType.oauth"
  | pwd => "AuthType.pwd"
  end.

Inductive ending (A : Type) : Type :=
| Returns (a : A)
| Raises (e : exn)
| Exits (code : Z).

Arguments Returns {A} a.
Arguments Raises {A} e.
Arguments Exits {A} code.

Definition section : Type := string -> option (option string).

Definition config_reader : Type := string -> exn + option section.

Definition ERR_LABEL : string := "ERROR: ".

Fixpoint spaces (n : nat) : string :=
  match n with
  | O => EmptyString
  | S n' => String " " (spaces n')
  end.

Definition ERR_INDENT : string := spaces (String.length ERR_LABEL).
Definition EXITING_STR : string := ERR_INDENT +:+ "Exiting..." +:+ LF.

(** The result and the text written to standard error. *)
Definition load_config_data (config_read : config_reader)
    (config_file_path : string) : ending section * list string :=
  match config_read config_file_path with
  | inl e => (Raises e, [])
  | inr (Some defaults) =>
      (Returns defaults,
       [NOTE_LABEL +:+ "Using configuration file: '" +:+ config_file_path
          +:+ "'" +:+ LF])
  | inr None =>
      (Exits 1,
       [ERR_LABEL +:+ "Unable to open configuration file: '"
          +:+ config_file_path +:+ "'" +:+ LF +:+ EXITING_STR])
  end.

Definition section_getitem (cfg : section) (key : string)
  : ending (option string) :=
  match cfg key with
  | Some v => Returns v
  | None => Raises (KeyError key)
  end.

(** [AuthType(AuthType.pwd)] looks the member up by value and gives the
    member [pwd] back, so [auth_t] is [pwd]; both branches of the test on
    it are kept as the source has them. *)
Definition get_auth (config_read : config_reader) (config_file_path : string)
  : ending (string * string) * list string :=
  match load_config_data config_read config_file_path with
  | (Returns cfg, err) =>
      let auth_t := pwd in
      if AuthType_is auth_t pwd then
        match section_getitem cfg "User" with
        | Returns user =>
            match section_getitem cfg "Pwd" with
            | Returns pwd_value =>
                match user, pwd_value with
                | Some u, Some p => (Returns (u, p), err)
                | _, _ =>
                    (Exits 1,
                     err ++ [ERR_LABEL
                               +:+ "Username/Password must be specified in config file"
                               +:+ LF +:+ EXITING_STR])
                end
            | Raises e => (Raises e, err)
            | Exits c => (Exits c, err)
            end
        | Raises e => (Raises e, err)
        | Exits c => (Exits c, err)
        end
      else
        (Exits 1,
         err ++ [ERR_LABEL +:+ "Unable to handle Authorization type: "
                   +:+ AuthType_str auth_t +:+ LF +:+ EXITING_STR])
  | (Raises e, err) => (Raises e, err)
  | (Exits c, err) => (Exits c, err)
  end.

(** A configuration with both options, one without [Pwd], and none. *)
Definition config_of (options : list (string * string)) : section :=
  fun key =>
    match list_find (fun kv => String.eqb (fst kv) key) options with
    | Some (_, (_, v)) => Some (Some v)
    | None => None
    end.

Definition home_config : config_reader :=
  fun path =>
    if String.eqb path "good.ini"
    then inr (Some (config_of [("User", "alice"); ("Pwd", "s3cret")]%string))
    else if String.eqb path "nopwd.ini"
    then inr (Some (config_of [("User", "alice")]%string))
    else inr None.

(** * Properties *)

(** ** Names the module never binds *)

Lemma datetime_unbound : "datetime" ∉ module_globals.
Proof. intros H. apply (bool_decide_pack _) in H. vm_compute in H. exact H. Qed.

Lemma gh_shared_unbound : "gh_shared" ∉ module_globals.
Proof. intros H. apply (bool_decide_pack _) in H. vm_compute in H. exact H. Qed.

Lemma sleep_unbound : "sleep" ∉ module_globals.
Proof. intros H. apply (bool_decide_pack _) in H. vm_compute in H. exact H. Qed.

Lemma lookup_name_unbound (P : Platform) (g : gset string) (name : string)
    (w : World P) :
  name ∉ g -> lookup_name g name w = (Raise (NameError name), w, []).
Proof. intros H. unfold lookup_name. destruct (decide (name ∈ g)); [done | reflexivity]. Qed.

Lemma lookup_name_bound (P : Platform) (g : gset string) (name : string)
    (w : World P) :
  name ∈ g -> lookup_name g name w = (Ret tt, w, []).
Proof. intros H. unfold lookup_name. destruct (decide (name ∈ g)); [reflexivity | done]. Qed.

(** ** Running the monad *)

Ltac run_bind :=
  unfold mbind, M_bind, mret, M_ret, raise, out_of_fuel, lift, stdout_write,
    emit;
  cbn beta iota.

(** ** [get_page] *)

Lemma get_page_passes (P : Platform) (g : gset string) (fuel : nat)
    (url : string) (params : list (string * string))
    (auth : option (string * string)) (w w' : World P) (r : response)
    (v : string) :
  http_get P (mk_request url params auth) w = (inr r, w') ->
  headers r !! "x-ratelimit-remaining" = Some v ->
  v ≠ "0" ->
  get_page g (S fuel) url params auth w =
    (if status_code r =? 200 then Ret r
     else Raise (StatusException (status_code r)),
     w', [EvGet (mk_request url params auth)]).
Proof.
  intros Hget Hh Hv. cbn [get_page]. run_bind. unfold requests_get.
  rewrite Hget. unfold headers_getitem. rewrite Hh.
  destruct (String.eqb_spec v "0") as [->|_]; [done|].
  destruct (status_code r =? 200); reflexivity.
Qed.

Lemma get_page_limited (P : Platform) (fuel : nat) (url : string)
    (params : list (string * string)) (auth : option (string * string))
    (w w' : World P) (r : response) :
  http_get P (mk_request url params auth) w = (inr r, w') ->
  headers r !! "x-ratelimit-remaining" = Some "0" ->
  get_page module_globals (S fuel) url params auth w =
    (Raise (rate_limit_error P r), w',
     [EvGet (mk_request url params auth);
      EvStdout ("Rate Limit Hit, waiting for reset..." +:+ LF)]).
Proof.
  intros Hget Hh. cbn [get_page]. run_bind. unfold requests_get.
  rewrite Hget. unfold headers_getitem, rate_limit_error. rewrite Hh.
  cbn [String.eqb Ascii.eqb Bool.eqb].
  destruct (headers r !! "x-ratelimit-reset") as [s|]; [|reflexivity].
  unfold parse_int. destruct (py_int P s) as [n|]; [|reflexivity].
  cbn beta iota. rewrite lookup_name_unbound by apply datetime_unbound.
  reflexivity.
Qed.

(** C5: when the remaining-rate-limit header is present and is not "0",
    [get_page] sends one request and gives the response back if its status
    is 200; for any other status it raises [Exception(status_code)],
    without a second request. *)
Theorem get_page_status (P : Platform) (g : gset string) (fuel : nat)
    (url : string) (params : list (string * string))
    (auth : option (string * string)) (w w' : World P) (r : response)
    (v : string) :
  http_get P (mk_request url params auth) w = (inr r, w') ->
  headers r !! "x-ratelimit-remaining" = Some v ->
  v ≠ "0" ->
  (status_code r = 200 ->
     get_page g (S fuel) url params auth w =
       (Ret r, w', [EvGet (mk_request url params auth)]))
  /\ (status_code r ≠ 200 ->
     get_page g (S fuel) url params auth w =
       (Raise (StatusException (status_code r)), w',
        [EvGet (mk_request url params auth)])).
Proof.
  intros Hget Hh Hv.
  rewrite (get_page_passes P g fuel url params auth w w' r v Hget Hh Hv).
  split; intros Hs.
  - rewrite Hs. reflexivity.
  - destruct (Z.eqb_spec (status_code r) 200); [done | reflexivity].
Qed.

Lemma get_page_status_witness :
  get_page module_globals 1 pulls_url PARAMS None
      (mk_lab [resp 404 open_headers None] 0 : World scripted)
    = (Raise (StatusException 404), mk_lab [] 0,
       [EvGet (mk_request pulls_url PARAMS None)]).
Proof.
  apply (get_page_status scripted module_globals 0 pulls_url PARAMS None
           (mk_lab [resp 404 open_headers None] 0) (mk_lab [] 0)
           (resp 404 open_headers None) "4999");
    [reflexivity | vm_compute; reflexivity | discriminate | discriminate].
Defined.

(** C9: a response without the x-ratelimit-remaining header makes
    [get_page] raise [KeyError] for that header right after the request,
    whatever the status code, 200 included. *)
Theorem get_page_missing_header (P : Platform) (g : gset string) (fuel : nat)
    (url : string) (params : list (string * string))
    (auth : option (string * string)) (w w' : World P) (r : response) :
  http_get P (mk_request url params auth) w = (inr r, w') ->
  headers r !! "x-ratelimit-remaining" = None ->
  get_page g (S fuel) url params auth w =
    (Raise (KeyError "x-ratelimit-remaining"), w',
     [EvGet (mk_request url params auth)]).
Proof.
  intros Hget Hh. cbn [get_page]. run_bind. unfold requests_get.
  rewrite Hget. unfold headers_getitem. rewrite Hh. reflexivity.
Qed.

Lemma get_page_missing_header_witness :
  get_page module_globals 1 pulls_url PARAMS None
      (mk_lab [resp 200 [] (Some (JList []))] 0 : World scripted)
    = (Raise (KeyError "x-ratelimit-remaining"), mk_lab [] 0,
       [EvGet (mk_request pulls_url PARAMS None)]).
Proof.
  apply (get_page_missing_header scripted module_globals 0 pulls_url PARAMS
           None (mk_lab [resp 200 [] (Some (JList []))] 0) (mk_lab [] 0)
           (resp 200 [] (Some (JList []))));
    [reflexivity | vm_compute; reflexivity].
Defined.

(** C8, as the code has it: when the remaining-rate-limit header reads
    "0", [get_page] writes its notice and raises before any wait and
    before any second request.  The exception is [NameError] for
    [datetime] when the reset header is present and parses as an integer,
    [KeyError] when the header is missing, [ValueError] when it does not
    parse. *)
Theorem get_page_rate_limited (P : Platform) (fuel : nat) (url : string)
    (params : list (string * string)) (auth : option (string * string))
    (w w' : World P) (r : response) :
  http_get P (mk_request url params auth) w = (inr r, w') ->
  headers r !! "x-ratelimit-remaining" = Some "0" ->
  get_page module_globals (S fuel) url params auth w =
    (Raise (rate_limit_error P r), w',
     [EvGet (mk_request url params auth);
      EvStdout ("Rate Limit Hit, waiting for reset..." +:+ LF)])
  /\ (forall s n, headers r !! "x-ratelimit-reset" = Some s ->
        py_int P s = Some n ->
        rate_limit_error P r = NameError "datetime")
  /\ (headers r !! "x-ratelimit-reset" = None ->
        rate_limit_error P r = KeyError "x-ratelimit-reset").
Proof.
  intros Hget Hh. split; [apply get_page_limited; assumption|].
  unfold rate_limit_error. split.
  - intros s n -> ->. reflexivity.
  - intros ->. reflexivity.
Qed.

Lemma get_page_rate_limited_witness :
  get_page module_globals 2 pulls_url PARAMS None
      (mk_lab [resp 200 limited_headers (Some (JList []));
               resp 200 open_headers (Some (JList []))] 0 : World scripted)
    = (Raise (NameError "datetime"),
       mk_lab [resp 200 open_headers (Some (JList []))] 0,
       [EvGet (mk_request pulls_url PARAMS None);
        EvStdout ("Rate Limit Hit, waiting for reset..." +:+ LF)]).
Proof.
  apply (get_page_rate_limited scripted 1 pulls_url PARAMS None
           (mk_lab [resp 200 limited_headers (Some (JList []));
                    resp 200 open_headers (Some (JList []))] 0)
           (mk_lab [resp 200 open_headers (Some (JList []))] 0)
           (resp 200 limited_headers (Some (JList []))));
    [reflexivity | vm_compute; reflexivity].
Defined.

(** C8, as stated, fails for a response whose remaining-rate-limit header
    reads "0" and that carries no reset header: the exception is a
    [KeyError], not a [NameError]. *)
Lemma rate_limited_without_reset_header :
  exists e,
    get_page module_globals 1 pulls_url PARAMS None
        (mk_lab [resp 200 [("x-ratelimit-remaining", "0")%string] None] 0
           : World scripted)
      = (Raise e, mk_lab [] 0,
         [EvGet (mk_request pulls_url PARAMS None);
          EvStdout ("Rate Limit Hit, waiting for reset..." +:+ LF)])
    /\ e = KeyError "x-ratelimit-reset"
    /\ is_name_error e = false.
Proof.
  exists (KeyError "x-ratelimit-reset").
  split; [vm_compute; reflexivity | split; reflexivity].
Qed.

(** C2: the scenario of the claim, run on the module as it is.  The first
    response has no requests left and resets at T = 1700000000; the clock
    stands at T - 5 s.  [get_page] raises [NameError] at line 162: nothing
    is slept, the request is not sent again, and the response that a retry
    would receive stays unread. *)
Theorem get_page_rate_limit_scenario :
  get_page module_globals 2 pulls_url PARAMS None
      (mk_lab [resp 200 limited_headers (Some (JList []));
               resp 200 open_headers (Some (JList []))]
              ((1700000000 - 5) * 1000000) : World scripted)
    = (Raise (NameError "datetime"),
       mk_lab [resp 200 open_headers (Some (JList []))]
              ((1700000000 - 5) * 1000000),
       [EvGet (mk_request pulls_url PARAMS None);
        EvStdout ("Rate Limit Hit, waiting for reset..." +:+ LF)]).
Proof. vm_compute. reflexivity. Qed.

(** ** [wait_it_out] *)

(** C6: on the module as it is, [wait_it_out] raises [NameError] for
    [gh_shared] before it writes or sleeps, for every message and every
    requested duration. *)
Theorem wait_it_out_name_error (P : Platform) (msg : string) (W : Z)
    (w : World P) :
  wait_it_out module_globals msg W w = (Raise (NameError "gh_shared"), w, []).
Proof.
  unfold wait_it_out, wait_iterations. cbn [wait_loop]. run_bind.
  destruct (W + 15 >=? 0); cbn beta iota;
    rewrite lookup_name_unbound by apply gh_shared_unbound; reflexivity.
Qed.

(** What the loop would do with [gh_shared] and [sleep] bound.  A padded
    wait of at most a minute, or a wait that comes down to one, ends in
    the [ValueError] of the [{1:0.2f}] placeholder; a padded wait between
    one and four minutes is slept in one piece. *)
Lemma wait_it_out_short (P : Platform) (g : gset string) (msg : string)
    (W : Z) (w : World P) :
  "gh_shared" ∈ g -> 0 <= W + 15 <= 60 ->
  wait_it_out g msg W w =
    (Raise (ValueError "Unknown format code 'f' for object of type 'str'"),
     w, []).
Proof.
  intros Hg HW. unfold wait_it_out, wait_iterations. cbn [wait_loop]. run_bind.
  destruct (Z.geb_spec (W + 15) 0); [|lia].
  destruct (Z.gtb_spec (W + 15) 60); [lia|].
  cbn beta iota. rewrite lookup_name_bound by done. reflexivity.
Qed.

Lemma wait_it_out_medium (P : Platform) (g : gset string) (msg : string)
    (W : Z) (w : World P) :
  "gh_shared" ∈ g -> "sleep" ∈ g -> 60 < W + 15 < 240 ->
  wait_it_out g msg W w =
    (Ret tt, sleep_for P (W + 15) w,
     [EvStdout (gh_shared_NOTE_LABEL P +:+ msg +:+ LF +:+ "      "
                  +:+ pretty ((W + 15) / 60) +:+ " minutes remaining..."
                  +:+ LF);
      EvSleep (W + 15);
      EvStdout (gh_shared_NOTE_LABEL P
                  +:+ "Wait completed, continuing execution..." +:+ LF)]).
Proof.
  intros Hg Hs HW. unfold wait_it_out.
  assert (wait_iterations (W + 15) = 2%nat) as ->.
  { unfold wait_iterations. rewrite Z.div_small by lia. reflexivity. }
  cbn [wait_loop]. run_bind.
  destruct (Z.geb_spec (W + 15) 0); [|lia].
  destruct (Z.gtb_spec (W + 15) 60); [|lia].
  destruct (Z.gtb_spec (W + 15) 240); [lia|].
  destruct (Z.geb_spec (W + 15 - 240) 0); [lia|].
  unfold time_sleep. destruct (Z.ltb_spec (W + 15) 0); [lia|].
  cbn beta iota. rewrite !lookup_name_bound by done. unfold format_notice.
  cbn beta iota. rewrite !lookup_name_bound by done. reflexivity.
Qed.

(** ** [download_pulls] *)

Lemma next_url_links_to (r : response) (next : string) :
  links_to r next -> next_url r = Ret (Some next).
Proof.
  intros (h & pages & Hh & Hp & [l Hl] & Hn). unfold next_url.
  rewrite Hh, Hp. cbn. rewrite Hl, Hn. reflexivity.
Qed.

Lemma next_url_last_page (r : response) :
  last_page r -> next_url r = Ret None.
Proof.
  intros [Hh | (h & pages & Hh & Hp & Hn)]; unfold next_url; rewrite Hh;
    [reflexivity|].
  rewrite Hp. cbn.
  destruct Hn as [-> | ->]; [destruct (pages !! "last")|]; reflexivity.
Qed.

Lemma download_loop_done (P : Platform) (g : gset string) (fuel : nat)
    (params : list (string * string)) (auth : option (string * string))
    (acc : list json) (total : Z) (w : World P) :
  download_loop g fuel None params auth acc total w = (Ret acc, w, []).
Proof. destruct fuel; reflexivity. Qed.

(** One turn of the loop on an accepted page. *)
Lemma download_loop_page (P : Platform) (g : gset string) (fuel : nat)
    (url : string) (params : list (string * string))
    (auth : option (string * string)) (acc : list json) (total : Z)
    (w w1 : World P) (r : response) (records : list json)
    (next : option string) :
  http_get P (mk_request url params auth) w = (inr r, w1) ->
  page_of r records ->
  next_url r = Ret next ->
  download_loop g (S fuel) (Some url) params auth acc total w =
    let pull_reqs := acc ++ records in
    let total' := total + Z.of_nat (length records) in
    match download_loop g fuel next params auth pull_reqs total' w1 with
    | (o, w2, t2) =>
        (o, w2,
         EvGet (mk_request url params auth)
         :: EvStdout ("Processing " +:+ pretty (Z.of_nat (length records))
                        +:+ " issues/pull requests, for "
                        +:+ pretty total' +:+ " total" +:+ LF)
         :: t2)
    end.
Proof.
  intros Hget (Hs & (v & Hv & Hv0) & Hb) Hn.
  cbn [download_loop]. unfold mbind at 1. unfold M_bind at 1.
  rewrite (get_page_passes P g fuel url params auth w w1 r v Hget Hv Hv0).
  rewrite Hs. cbn [Z.eqb Pos.eqb]. run_bind.
  unfold response_json, py_iter. rewrite Hb, Hn. cbn beta iota.
  destruct (download_loop g fuel next params auth _ _ w1) as [[o w2] t2].
  reflexivity.
Qed.

Lemma download_loop_pages (P : Platform) (g : gset string)
    (params : list (string * string)) (auth : option (string * string))
    (w w' : World P) (urls : list string)
    (pages : list (response * list json)) :
  serves P params auth w urls pages w' ->
  forall fuel acc total, (length pages <= fuel)%nat ->
  exists tr,
    download_loop g fuel (head urls) params auth acc total w =
      (Ret (acc ++ concat (map snd pages)), w', tr)
    /\ requests_of tr = map (fun u => mk_request u params auth) urls.
Proof.
  induction 1 as [w url r records w' Hget Hpage Hlast
                 | w url r records w1 next urls pages w' Hget Hpage Hlink
                     Hrest IH];
    intros fuel acc total Hfuel;
    (destruct fuel as [|fuel]; [cbn in Hfuel; lia|]).
  - cbn [head].
    rewrite (download_loop_page P g fuel url params auth acc total w w' r
               records None Hget Hpage (next_url_last_page r Hlast)).
    cbn zeta. rewrite download_loop_done. eexists. split.
    + cbn [map snd concat]. rewrite app_nil_r. reflexivity.
    + reflexivity.
  - cbn [head].
    rewrite (download_loop_page P g fuel url params auth acc total w w1 r
               records (Some next) Hget Hpage (next_url_links_to r next Hlink)).
    cbn zeta.
    destruct (IH fuel (acc ++ records) (total + Z.of_nat (length records)))
      as (tr & Htr & Hreq).
    { cbn in Hfuel. lia. }
    cbn [head] in Htr. rewrite Htr. eexists. split.
    + cbn [map snd concat]. rewrite app_assoc. reflexivity.
    + cbn [requests_of omap]. cbn. f_equal. exact Hreq.
Qed.

(** C1: when the network serves a chain of pages, each page but the last
    carrying both a [next] and a [last] relation and the last page lacking
    a link header or one of the two relations, [download_pulls] returns
    the concatenation of the pages' records in order; it asks for the
    first URL and then for each [next] URL, one request per page, and
    leaves the world as the last page left it. *)
Theorem download_pulls_pages (P : Platform) (g : gset string) (fuel : nat)
    (url : string) (params : list (string * string))
    (auth : option (string * string)) (w w' : World P) (urls : list string)
    (pages : list (response * list json)) :
  serves P params auth w (url :: urls) pages w' ->
  (length pages <= fuel)%nat ->
  exists tr,
    download_pulls g fuel url params auth w =
      (Ret (concat (map snd pages)), w', tr)
    /\ requests_of tr = map (fun u => mk_request u params auth) (url :: urls)
    /\ length (requests_of tr) = length pages.
Proof.
  intros Hs Hfuel. unfold download_pulls.
  destruct (download_loop_pages P g params auth w w' (url :: urls) pages Hs
              fuel [] 0 Hfuel) as (tr & Htr & Hreq).
  exists tr. split; [exact Htr|]. split; [exact Hreq|].
  rewrite Hreq, length_map. clear -Hs. induction Hs; cbn; auto.
Qed.

Lemma download_pulls_pages_witness :
  exists tr,
    download_pulls module_globals 2 pulls_url PARAMS None
       (mk_lab [first_page; second_page; first_page] 0 : World scripted)
     = (Ret [JInt 1; JInt 2; JInt 3], mk_lab [first_page] 0, tr)
    /\ requests_of tr =
         [mk_request pulls_url PARAMS None; mk_request page2_url PARAMS None]
    /\ length (requests_of tr) = 2%nat.
Proof.
  apply (download_pulls_pages scripted module_globals 2 pulls_url PARAMS None
    (mk_lab [first_page; second_page; first_page] 0) (mk_lab [first_page] 0)
    [page2_url]
    [(first_page, [JInt 1; JInt 2]); (second_page, [JInt 3])]);
    [|cbn; lia].
  eapply serves_next with (w1 := mk_lab [second_page; first_page] 0).
  - reflexivity.
  - split; [reflexivity|]. split; [|reflexivity].
    exists "4999". split; [vm_compute; reflexivity | discriminate].
  - eexists _, _. split; [vm_compute; reflexivity|].
    split; [vm_compute; reflexivity|].
    split; [eexists; vm_compute; reflexivity | vm_compute; reflexivity].
  - apply serves_last.
    + reflexivity.
    + split; [reflexivity|]. split; [|reflexivity].
      exists "4999". split; [vm_compute; reflexivity | discriminate].
    + right. eexists _, _. split; [vm_compute; reflexivity|].
      split; [vm_compute; reflexivity|]. left. vm_compute. reflexivity.
Defined.

(** ** [is_defect] *)

Lemma get_page_delivers (P : Platform) (g : gset string) (fuel : nat)
    (url : string) (params : list (string * string))
    (auth : option (string * string)) (w w' : World P) (r : response)
    (v : json) :
  http_get P (mk_request url params auth) w = (inr r, w') ->
  delivers r v ->
  get_page g (S fuel) url params auth w =
    (Ret r, w', [EvGet (mk_request url params auth)]).
Proof.
  intros Hget (Hs & (h & Hh & Hh0) & _).
  rewrite (get_page_passes P g fuel url params auth w w' r h Hget Hh Hh0).
  rewrite Hs. reflexivity.
Qed.

Lemma label_names_of_named (labels : list json) (L : list string) :
  Forall2 label_named labels L -> label_names_of labels = Ret (map JStr L).
Proof.
  induction 1 as [|l n labels L Hl _ IH]; [reflexivity|].
  cbn [label_names_of map]. unfold label_named in Hl. rewrite Hl. cbn.
  rewrite IH. reflexivity.
Qed.

Lemma py_set_of_strings (L : list string) :
  py_set_of (map JStr L) = Ret (list_to_set L).
Proof.
  unfold py_set_of.
  assert (forallb py_hashable (map JStr L) = true) as ->.
  { induction L; [reflexivity|]. cbn. exact IHL. }
  f_equal. f_equal. induction L as [|n L IH]; [reflexivity|].
  cbn. f_equal. exact IH.
Qed.

Lemma elem_of_DEFECTS (n : string) :
  n ∈ DEFECTS <-> n = "bug" \/ n = "defect" \/ n = "kind/bug".
Proof.
  unfold DEFECTS. rewrite elem_of_list_to_set, !elem_of_cons, elem_of_nil.
  tauto.
Qed.

(** C3: for a pull request whose issue is fetched and carries the labels
    named [L], [is_defect] returns true exactly when a name of [L] is one
    of bug, defect, kind/bug; with no labels (the field empty or absent)
    it returns false.  It sends the one request for the issue. *)
Theorem is_defect_labels (P : Platform) (g : gset string) (fuel : nat)
    (pull : json) (u : string) (params : list (string * string))
    (auth : option (string * string)) (w w' : World P) (r : response)
    (issue : json) (labels : list json) (L : list string) :
  py_getitem pull "issue_url" = Ret (JStr u) ->
  http_get P (mk_request u params auth) w = (inr r, w') ->
  delivers r issue ->
  issue_labels issue labels ->
  Forall2 label_named labels L ->
  exists b,
    is_defect g (S fuel) pull params auth w =
      (Ret b, w', [EvGet (mk_request u params auth)])
    /\ (b = true <->
        exists n, n ∈ L /\ (n = "bug" \/ n = "defect" \/ n = "kind/bug"))
    /\ (L = [] -> b = false).
Proof.
  intros Hurl Hget Hdel (fields & -> & Hlab) HL.
  assert (Hbody : body r = Some (JDict fields)) by apply Hdel.
  assert (Hget' : py_dict_get (JDict fields) "labels" (JList [])
                  = Ret (JList labels)).
  { cbn. destruct Hlab as [[-> ->] | ->]; reflexivity. }
  unfold is_defect. run_bind. rewrite Hurl. cbn [as_url]. cbn beta iota.
  rewrite (get_page_delivers P g fuel u params auth w w' r _ Hget Hdel).
  unfold response_json. rewrite Hbody. cbn beta iota. rewrite Hget'.
  cbn [py_iter]. cbn beta iota.
  rewrite (label_names_of_named labels L HL). cbn beta iota.
  rewrite py_set_of_strings. cbn beta iota.
  destruct (decide (DEFECTS ∩ list_to_set L = ∅)) as [He | He].
  - exists false. split; [reflexivity|]. split; [|reflexivity].
    split; [discriminate|].
    intros (n & Hn & Hd). exfalso. apply elem_of_DEFECTS in Hd.
    assert (n ∈ DEFECTS ∩ (list_to_set L : gset string)) as Hin.
    { apply elem_of_intersection. split; [exact Hd|].
      apply elem_of_list_to_set. exact Hn. }
    rewrite He in Hin. exact (not_elem_of_empty n Hin).
  - exists true. split; [reflexivity|]. split.
    + split; [intros _|reflexivity].
      apply set_choose_L in He as (n & Hn). exists n.
      apply elem_of_intersection in Hn as [Hd HnL]. split.
      * apply elem_of_list_to_set in HnL. exact HnL.
      * apply elem_of_DEFECTS. exact Hd.
    + intros ->. exfalso. apply He. cbn [list_to_set foldr].
      apply intersection_empty_r_L.
Qed.

Lemma is_defect_labels_witness :
  exists b,
    is_defect module_globals 1 pull1 PARAMS None
       (mk_lab [issue1] 0 : World scripted)
     = (Ret b, mk_lab [] 0, [EvGet (mk_request issue1_url PARAMS None)])
    /\ (b = true <->
        exists n, n ∈ ["ui"; "bug"]%string
                  /\ (n = "bug" \/ n = "defect" \/ n = "kind/bug"))
    /\ (["ui"; "bug"]%string = [] -> b = false).
Proof.
  apply (is_defect_labels scripted module_globals 0 pull1 issue1_url PARAMS
    None (mk_lab [issue1] 0) (mk_lab [] 0) issue1
    (JDict [("labels", JList [label "ui"; label "bug"])]%string)
    [label "ui"; label "bug"] ["ui"; "bug"]%string).
  - reflexivity.
  - reflexivity.
  - split; [reflexivity|]. split; [|reflexivity].
    exists "4999". split; [vm_compute; reflexivity | discriminate].
  - eexists. split; [reflexivity|]. right. reflexivity.
  - repeat constructor.
Defined.

(** ** [analyze_pulls] *)




Lemma progress_tick_runs (P : Platform) (progress : Z) (w : World P) :
  exists progress' t, progress_tick progress w = (Ret progress', w, t).
Proof.
  unfold progress_tick. run_bind.
  destruct (progress / 10 >? 0); cbn; destruct (progress + 1 =? 71); cbn;
    eexists _, _; reflexivity.
Qed.

Lemma classify_loop_classifies (P : Platform) (g : gset string) (fuel : nat)
    (params : list (string * string)) (auth : option (string * string))
    (w w' : World P) (pulls : list json) (sel : pydict) :
  classifies P g fuel params auth w pulls sel w' ->
  forall progress shas pull_commits,
    exists tr,
      classify_loop g fuel pulls params auth progress shas pull_commits w =
        (Ret (shas ++ concat (map snd sel), assign_all pull_commits sel),
         w', tr).
Proof.
  induction 1 as [w | w p w1 t rest sel w' Hd _ IH
                 | w p w1 t1 commits w2 t2 number rest sel w' Hd Hc Hn Hh _ IH];
    intros progress shas pc.
  - eexists. cbn. rewrite !app_nil_r. reflexivity.
  - destruct (progress_tick_runs P progress w) as (progress' & t0 & Ht).
    destruct (IH progress' shas pc) as (tr & Htr).
    eexists. cbn [classify_loop]. unfold VERBOSE. run_bind.
    rewrite Ht, Hd. cbn beta iota. rewrite Htr. reflexivity.
  - destruct (progress_tick_runs P progress w) as (progress' & t0 & Ht).
    destruct (IH progress' (shas ++ commits) (dict_assign number commits pc))
      as (tr & Htr).
    eexists. cbn [classify_loop]. unfold VERBOSE. run_bind.
    rewrite Ht, Hd. cbn beta iota. rewrite Hc, Hn. cbn beta iota.
    unfold dict_setitem. rewrite Hh.
    cbn beta iota. rewrite Htr. cbn [concat map snd].
    rewrite <- !app_assoc. reflexivity.
Qed.

Lemma classify_loop_returns (P : Platform) (g : gset string) (fuel : nat)
    (params : list (string * string)) (auth : option (string * string))
    (pulls : list json) :
  forall progress shas pull_commits (w w' : World P) res tr,
    classify_loop g fuel pulls params auth progress shas pull_commits w =
      (Ret res, w', tr) ->
    exists sel,
      classifies P g fuel params auth w pulls sel w'
      /\ res = (shas ++ concat (map snd sel), assign_all pull_commits sel).
Proof.
  induction pulls as [|p rest IH]; intros progress shas pc w w' res tr Hrun.
  - cbn in Hrun. injection Hrun as <- <- _. exists []. split.
    + constructor.
    + cbn. rewrite app_nil_r. reflexivity.
  - destruct (progress_tick_runs P progress w) as (progress' & t0 & Ht).
    cbn [classify_loop] in Hrun. unfold VERBOSE in Hrun.
    unfold mbind, M_bind in Hrun. rewrite Ht in Hrun.
    destruct (is_defect g fuel p params auth w) as [[[b| |] w1] t1] eqn:Hd;
      try discriminate.
    destruct b.
    + destruct (get_commits_by_pull g fuel p params auth w1)
        as [[[commits| |] w2] t2] eqn:Hc; try discriminate.
      unfold lift in Hrun.
      destruct (py_getitem p "number") as [number| |] eqn:Hn; try discriminate.
      unfold dict_setitem in Hrun.
      destruct (py_hashable number) eqn:Hh; try discriminate.
      destruct (classify_loop g fuel rest params auth progress'
                  (shas ++ commits) (dict_assign number commits pc) w2)
        as [[[res'| |] w3] t3] eqn:Hrest; try discriminate.
      injection Hrun as <- <- _.
      destruct (IH _ _ _ _ _ _ _ Hrest) as (sel & Hsel & Hres).
      exists ((number, commits) :: sel). split.
      * econstructor; eassumption.
      * rewrite Hres. cbn. rewrite app_assoc. reflexivity.
    + destruct (classify_loop g fuel rest params auth progress' shas pc w1)
        as [[[res'| |] w3] t3] eqn:Hrest; try discriminate.
      injection Hrun as <- <- _.
      destruct (IH _ _ _ _ _ _ _ Hrest) as (sel & Hsel & Hres).
      exists sel. split; [|exact Hres].
      econstructor; eassumption.
Qed.




(** X2: every run of [analyze_pulls] that returns has fetched the pull
    requests and classified each of them; the list it returns is the
    concatenation, in iteration order, of the commit lists of the pulls
    [is_defect] accepted, whether or not their numbers are distinct. *)
Theorem analyze_pulls_returns (P : Platform) (g : gset string) (fuel : nat)
    (owner repo : string) (params : list (string * string))
    (auth : option (string * string)) (w w' : World P) (shas : list json)
    (tr : list event) :
  analyze_pulls g fuel owner repo params auth w = (Ret shas, w', tr) ->
  exists pulls w1 tr0 sel,
    get_pull_requests g fuel owner repo params auth w = (Ret pulls, w1, tr0)
    /\ classifies P g fuel params auth w1 pulls sel w'
    /\ shas = concat (map snd sel)
    /\ last tr = Some (EvJsonDump ("./" +:+ repo +:+ "_pulls.json") owner repo
                         (assign_all [] sel)).
Proof.
  unfold analyze_pulls, write_outputs. intros Hrun.
  unfold mbind at 1 in Hrun. unfold M_bind at 1 in Hrun.
  destruct (get_pull_requests g fuel owner repo params auth w)
    as [[[pulls| |] w1] tr0] eqn:Hpulls; try discriminate.
  unfold mbind at 1 in Hrun. unfold M_bind at 1 in Hrun.
  unfold stdout_write at 1 in Hrun. unfold emit at 1 in Hrun.
  unfold mbind at 1 in Hrun. unfold M_bind at 1 in Hrun.
  destruct (classify_loop g fuel pulls params auth 0 [] [] w1)
    as [[[res| |] w2] tr1] eqn:Hloop; try discriminate.
  destruct (classify_loop_returns P g fuel params auth pulls _ _ _ _ _ _ _
              Hloop) as (sel & Hsel & ->).
  unfold VERBOSE in Hrun. run_bind. cbn in Hrun.
  injection Hrun as <- <- <-.
  exists pulls, w1, tr0, sel.
  split; [reflexivity|]. split; [exact Hsel|]. split; [reflexivity|].
  rewrite !app_comm_cons, !app_assoc.
  change [EvStdout LF; ?a; ?b; ?c] with ([EvStdout LF; a; b] ++ [c]).
  rewrite app_assoc. apply last_snoc.
Qed.

Lemma analyze_pulls_returns_witness :
  exists pulls w1 tr0 sel,
    get_pull_requests module_globals 1 "o" "r" PARAMS None (0 : World hub)
      = (Ret pulls, w1, tr0)
    /\ classifies hub module_globals 1 PARAMS None w1 pulls sel 0
    /\ [JStr "c1"; JStr "c2"; JStr "c3"] = concat (map snd sel)
    /\ last (analyze_pulls module_globals 1 "o" "r" PARAMS None
               (0 : World hub)).2
       = Some (EvJsonDump ("./" +:+ "r" +:+ "_pulls.json") "o" "r"
                 (assign_all [] sel)).
Proof.
  apply (analyze_pulls_returns hub module_globals 1 "o" "r" PARAMS None 0 0
           [JStr "c1"; JStr "c2"; JStr "c3"]
           (analyze_pulls module_globals 1 "o" "r" PARAMS None
              (0 : World hub)).2).
  vm_compute. reflexivity.
Defined.

(** ** [get_page] on the module as it is *)

Lemma get_page_cases (P : Platform) (fuel : nat) (url : string)
    (params : list (string * string)) (auth : option (string * string))
    (w : World P) :
  let rq := mk_request url params auth in
  (exists e w', http_get P rq w = (inl e, w')
     /\ get_page module_globals (S fuel) url params auth w
        = (Raise e, w', [EvGet rq]))
  \/ (exists r w', http_get P rq w = (inr r, w')
        /\ headers r !! "x-ratelimit-remaining" = None
        /\ get_page module_globals (S fuel) url params auth w
           = (Raise (KeyError "x-ratelimit-remaining"), w', [EvGet rq]))
  \/ (exists r w', http_get P rq w = (inr r, w')
        /\ headers r !! "x-ratelimit-remaining" = Some "0"
        /\ get_page module_globals (S fuel) url params auth w
           = (Raise (rate_limit_error P r), w',
              [EvGet rq;
               EvStdout ("Rate Limit Hit, waiting for reset..." +:+ LF)]))
  \/ (exists r w' h, http_get P rq w = (inr r, w')
        /\ headers r !! "x-ratelimit-remaining" = Some h /\ h ≠ "0"
        /\ get_page module_globals (S fuel) url params auth w
           = (if status_code r =? 200 then Ret r
              else Raise (StatusException (status_code r)),
              w', [EvGet rq])).
Proof.
  intros rq.
  destruct (http_get P rq w) as [[e|r] w'] eqn:Hget.
  - left. exists e, w'. split; [reflexivity|].
    cbn [get_page]. run_bind. unfold requests_get. fold rq. rewrite Hget.
    reflexivity.
  - right.
    destruct (headers r !! "x-ratelimit-remaining") as [h|] eqn:Hh.
    + right. destruct (decide (h = "0")) as [-> | Hne].
      * left. exists r, w'. split; [reflexivity|]. split; [exact Hh|].
        apply get_page_limited; assumption.
      * right. exists r, w', h. split; [reflexivity|]. split; [exact Hh|].
        split; [exact Hne|]. eapply get_page_passes; eassumption.
    + left. exists r, w'. split; [reflexivity|]. split; [exact Hh|].
      cbn [get_page]. run_bind. unfold requests_get. fold rq. rewrite Hget.
      unfold headers_getitem. rewrite Hh. reflexivity.
Qed.

(** X3: on the module as it is, a call of [get_page] sends exactly one
    request, the one it was asked for, and never sleeps, whatever the
    network answers: the retry of line 168 is never reached. *)
Theorem get_page_single_request (P : Platform) (fuel : nat) (url : string)
    (params : list (string * string)) (auth : option (string * string))
    (w : World P) :
  let tr := (get_page module_globals (S fuel) url params auth w).2 in
  requests_of tr = [mk_request url params auth] /\ sleeps_of tr = [].
Proof.
  destruct (get_page_cases P fuel url params auth w)
    as [(e & w' & _ & ->) | [(r & w' & _ & _ & ->)
       | [(r & w' & _ & _ & ->) | (r & w' & h & _ & _ & _ & ->)]]];
    split; reflexivity.
Qed.

Lemma get_page_ret_inv (P : Platform) (fuel : nat) (url : string)
    (params : list (string * string)) (auth : option (string * string))
    (w w' : World P) (r : response) (tr : list event) :
  get_page module_globals fuel url params auth w = (Ret r, w', tr) ->
  http_get P (mk_request url params auth) w = (inr r, w')
  /\ tr = [EvGet (mk_request url params auth)]
  /\ status_code r = 200
  /\ exists h, headers r !! "x-ratelimit-remaining" = Some h /\ h ≠ "0".
Proof.
  destruct fuel as [|fuel]; [discriminate|]. intros Hrun.
  destruct (get_page_cases P fuel url params auth w)
    as [(e & w1 & _ & He) | [(r1 & w1 & _ & _ & He)
       | [(r1 & w1 & _ & _ & He) | (r1 & w1 & h & Hget & Hh & Hne & He)]]];
    rewrite He in Hrun; try discriminate.
  destruct (Z.eqb_spec (status_code r1) 200) as [Hs|Hs]; [|discriminate].
  injection Hrun as <- <- <-.
  split; [exact Hget|]. split; [reflexivity|]. split; [exact Hs|].
  exists h. split; assumption.
Qed.

(** X4: on the module as it is, [get_page] returns a response only when
    the network gave that response to its one request, its status is 200
    and its remaining-rate-limit header is present and not "0"; nothing is
    written to standard output on the way. *)
Theorem get_page_returns (P : Platform) (fuel : nat) (url : string)
    (params : list (string * string)) (auth : option (string * string))
    (w w' : World P) (r : response) (tr : list event) :
  get_page module_globals fuel url params auth w = (Ret r, w', tr) ->
  http_get P (mk_request url params auth) w = (inr r, w')
  /\ tr = [EvGet (mk_request url params auth)]
  /\ status_code r = 200
  /\ exists h, headers r !! "x-ratelimit-remaining" = Some h /\ h ≠ "0".
Proof. apply get_page_ret_inv. Qed.

Lemma get_page_returns_witness :
  http_get scripted (mk_request pulls_url PARAMS None)
      (mk_lab [issue1] 0) = (inr issue1, mk_lab [] 0)
  /\ [EvGet (mk_request pulls_url PARAMS None)]
     = [EvGet (mk_request pulls_url PARAMS None)]
  /\ status_code issue1 = 200
  /\ exists h, headers issue1 !! "x-ratelimit-remaining" = Some h /\ h ≠ "0".
Proof.
  apply (get_page_returns scripted 1 pulls_url PARAMS None
           (mk_lab [issue1] 0) (mk_lab [] 0) issue1
           [EvGet (mk_request pulls_url PARAMS None)]).
  vm_compute. reflexivity.
Defined.

(** ** Inverting a run that returns *)

Lemma bind_ret_inv (P : Platform) (A B : Type) (m : M P A) (k : A -> M P B)
    (w w' : World P) (b : B) (tr : list event) :
  (x ← m; k x) w = (Ret b, w', tr) ->
  exists a w1 t1 t2,
    m w = (Ret a, w1, t1) /\ k a w1 = (Ret b, w', t2) /\ tr = t1 ++ t2.
Proof.
  unfold mbind, M_bind.
  destruct (m w) as [[[a| |] w1] t1]; try discriminate.
  destruct (k a w1) as [[o w2] t2] eqn:Hk. intros H.
  injection H as -> <- <-. exists a, w1, t1, t2. repeat split. exact Hk.
Qed.

Lemma lift_ret_inv (P : Platform) (A : Type) (o : outcome A)
    (w w' : World P) (a : A) (tr : list event) :
  lift o w = (Ret a, w', tr) -> o = Ret a /\ w' = w /\ tr = [].
Proof. unfold lift. intros H. injection H as -> <- <-. repeat split. Qed.

Lemma bind_lift_inv (P : Platform) (A B : Type) (o : outcome A)
    (k : A -> M P B) (w w' : World P) (b : B) (tr : list event) :
  (x ← lift o; k x) w = (Ret b, w', tr) ->
  exists a, o = Ret a /\ k a w = (Ret b, w', tr).
Proof.
  unfold mbind, M_bind, lift. destruct o as [a| |]; try discriminate.
  destruct (k a w) as [[o' w2] t2] eqn:Hk. cbn [app]. intros H.
  exists a. split; [reflexivity|]. rewrite Hk. exact H.
Qed.

(** ** [is_defect] and [get_commits_by_pull] on the module as it is *)

Lemma is_defect_returns (P : Platform) (fuel : nat) (pull : json)
    (params : list (string * string)) (auth : option (string * string))
    (w w' : World P) (b : bool) (tr : list event) :
  is_defect module_globals fuel pull params auth w = (Ret b, w', tr) ->
  exists u, py_getitem pull "issue_url" = Ret (JStr u)
            /\ tr = [EvGet (mk_request u params auth)].
Proof.
  unfold is_defect. intros H.
  apply bind_lift_inv in H as (iu & Hiu & H).
  apply bind_lift_inv in H as (u & Hu & H).
  apply bind_ret_inv in H as (r & w1 & t1 & t2 & Hpage & H & ->).
  apply get_page_ret_inv in Hpage as (_ & -> & _).
  apply bind_lift_inv in H as (ij & _ & H).
  apply bind_lift_inv in H as (labels & _ & H).
  apply bind_lift_inv in H as (ll & _ & H).
  apply bind_lift_inv in H as (names & _ & H).
  apply bind_lift_inv in H as (nset & _ & H).
  destruct iu as [| | |s| |]; try discriminate. injection Hu as ->.
  exists u. split; [exact Hiu|].
  destruct (decide _); injection H as _ _ <-; reflexivity.
Qed.

Lemma get_commits_by_pull_returns (P : Platform) (fuel : nat) (pull : json)
    (params : list (string * string)) (auth : option (string * string))
    (w w' : World P) (commits : list json) (tr : list event) :
  get_commits_by_pull module_globals fuel pull params auth w
    = (Ret commits, w', tr) ->
  exists u, py_getitem pull "commits_url" = Ret (JStr u)
            /\ tr = [EvGet (mk_request u params auth)].
Proof.
  unfold get_commits_by_pull, get_commits_by_url. intros H.
  apply bind_lift_inv in H as (cu & Hcu & H).
  apply bind_lift_inv in H as (u & Hu & H).
  apply bind_ret_inv in H as (r & w1 & t1 & t2 & Hpage & H & ->).
  apply get_page_ret_inv in Hpage as (_ & -> & _).
  apply bind_lift_inv in H as (cj & _ & H).
  apply bind_lift_inv in H as (cl & _ & H).
  apply lift_ret_inv in H as (_ & _ & ->).
  destruct cu as [| | |s| |]; try discriminate. injection Hu as ->.
  exists u. split; [exact Hcu | reflexivity].
Qed.

(** ** Progress markers *)

Lemma progress_tick_markers (P : Platform) (c : Z) (w : World P) :
  0 <= c < 71 ->
  progress_tick c w =
    (Ret (if c =? 70 then 0 else c + 1), w,
     map EvStdout ((if 10 <=? c then ["*"%string] else [])
                   ++ (if c =? 70 then [LF] else []))).
Proof.
  intros Hc. unfold progress_tick. run_bind.
  assert ((c / 10 >? 0) = (10 <=? c)) as ->.
  { destruct (Z.leb_spec 10 c) as [H|H].
    - apply Z.gtb_lt. apply Z.div_str_pos. lia.
    - rewrite Z.div_small by lia. reflexivity. }
  assert ((c + 1 =? 71) = (c =? 70)) as ->.
  { destruct (Z.eqb_spec c 70); [apply Z.eqb_eq | apply Z.eqb_neq]; lia. }
  destruct (10 <=? c); destruct (c =? 70); reflexivity.
Qed.

Lemma next_counter (k : Z) :
  0 <= k ->
  (if k mod 71 =? 70 then 0 else k mod 71 + 1) = (k + 1) mod 71.
Proof.
  intros Hk. pose proof (Z.mod_pos_bound k 71 eq_refl) as Hm.
  rewrite <- (Zplus_mod_idemp_l k 1 71).
  destruct (Z.eqb_spec (k mod 71) 70) as [-> | Hne]; [reflexivity|].
  rewrite (Z.mod_small (k mod 71 + 1)) by lia. reflexivity.
Qed.

Lemma stdout_of_app (t1 t2 : list event) :
  stdout_of (t1 ++ t2) = stdout_of t1 ++ stdout_of t2.
Proof. apply omap_app. Qed.

Lemma stdout_of_writes (texts : list string) :
  stdout_of (map EvStdout texts) = texts.
Proof.
  induction texts as [|t texts IH]; [reflexivity|].
  cbn. f_equal. exact IH.
Qed.

Lemma classify_loop_markers (P : Platform) (fuel : nat)
    (params : list (string * string)) (auth : option (string * string))
    (w w' : World P) (pulls : list json) (sel : pydict) :
  classifies P module_globals fuel params auth w pulls sel w' ->
  forall (k : nat) shas pull_commits,
    exists res tr,
      classify_loop module_globals fuel pulls params auth
        (Z.of_nat k mod 71) shas pull_commits w = (Ret res, w', tr)
      /\ stdout_of tr
         = flat_map pull_markers (map Z.of_nat (seq k (length pulls))).
Proof.
  induction 1 as [w | w p w1 t rest sel w' Hd _ IH
                 | w p w1 t1 commits w2 t2 number rest sel w' Hd Hc Hn Hh _ IH];
    intros k shas pc.
  - eexists _, _. split; reflexivity.
  - pose proof (Z.mod_pos_bound (Z.of_nat k) 71 eq_refl) as Hm.
    destruct (IH (S k) shas pc) as (res & tr & Htr & Hout).
    rewrite Nat2Z.inj_succ in Htr. unfold Z.succ in Htr.
    rewrite <- next_counter in Htr by lia.
    destruct (is_defect_returns P fuel p params auth w w1 false t Hd)
      as (u & _ & ->).
    eexists _, _. split.
    + cbn [classify_loop]. unfold VERBOSE. run_bind.
      rewrite (progress_tick_markers P _ w Hm), Hd. cbn beta iota.
      rewrite Htr. reflexivity.
    + rewrite !stdout_of_app, stdout_of_writes, Hout. cbn [length seq map flat_map].
      unfold pull_markers. cbn [stdout_of omap app].
      rewrite <- ?app_assoc. reflexivity.
  - pose proof (Z.mod_pos_bound (Z.of_nat k) 71 eq_refl) as Hm.
    destruct (IH (S k) (shas ++ commits) (dict_assign number commits pc))
      as (res & tr & Htr & Hout).
    rewrite Nat2Z.inj_succ in Htr. unfold Z.succ in Htr.
    rewrite <- next_counter in Htr by lia.
    destruct (is_defect_returns P fuel p params auth w w1 true t1 Hd)
      as (u & _ & ->).
    destruct (get_commits_by_pull_returns P fuel p params auth w1 w2 commits
                t2 Hc) as (u2 & _ & ->).
    eexists _, _. split.
    + cbn [classify_loop]. unfold VERBOSE. run_bind.
      rewrite (progress_tick_markers P _ w Hm), Hd. cbn beta iota.
      rewrite Hc, Hn. cbn beta iota. unfold dict_setitem. rewrite Hh.
      cbn beta iota. rewrite Htr. reflexivity.
    + rewrite !stdout_of_app, stdout_of_writes, Hout. cbn [length seq map flat_map].
      unfold pull_markers. cbn [stdout_of omap app].
      rewrite <- ?app_assoc. reflexivity.
Qed.

Lemma markers_for_S (n : nat) :
  markers_for (S n) = markers_for n ++ pull_markers (Z.of_nat n).
Proof.
  unfold markers_for. rewrite seq_S, map_app, flat_map_app. cbn.
  rewrite app_nil_r. reflexivity.
Qed.

Lemma count_text_app (text : string) (a b : list string) :
  count_text text (a ++ b) = count_text text a + count_text text b.
Proof. unfold count_text. rewrite count_occ_app. lia. Qed.

Lemma count_text_markers (i : Z) :
  count_text "*" (pull_markers i) = (if 10 <=? i mod 71 then 1 else 0)
  /\ count_text LF (pull_markers i) = (if i mod 71 =? 70 then 1 else 0).
Proof.
  unfold pull_markers.
  destruct (10 <=? i mod 71); destruct (i mod 71 =? 70); split; reflexivity.
Qed.

Lemma markers_for_count (n : nat) :
  count_text "*" (markers_for n)
    = 61 * (Z.of_nat n / 71) + Z.max 0 (Z.of_nat n mod 71 - 10)
  /\ count_text LF (markers_for n) = Z.of_nat n / 71.
Proof.
  induction n as [|n [IHs IHl]]; [split; reflexivity|].
  rewrite markers_for_S, !count_text_app, IHs, IHl.
  destruct (count_text_markers (Z.of_nat n)) as [-> ->].
  rewrite Nat2Z.inj_succ. unfold Z.succ.
  pose proof (Z.mod_pos_bound (Z.of_nat n) 71 eq_refl) as Hm.
  pose proof (Z.div_mod (Z.of_nat n) 71 ltac:(lia)) as Hn.
  destruct (Z.eqb_spec (Z.of_nat n mod 71) 70) as [He | Hne].
  - assert ((Z.of_nat n + 1) / 71 = Z.of_nat n / 71 + 1) as Hq.
    { symmetry. apply (Z.div_unique _ 71 _ 0); lia. }
    assert ((Z.of_nat n + 1) mod 71 = 0) as Hr.
    { symmetry. apply (Z.mod_unique _ 71 (Z.of_nat n / 71 + 1)); lia. }
    rewrite Hq, Hr, He. cbn. lia.
  - assert ((Z.of_nat n + 1) / 71 = Z.of_nat n / 71) as Hq.
    { symmetry. apply (Z.div_unique _ 71 _ (Z.of_nat n mod 71 + 1)); lia. }
    assert ((Z.of_nat n + 1) mod 71 = Z.of_nat n mod 71 + 1) as Hr.
    { symmetry. apply (Z.mod_unique _ 71 (Z.of_nat n / 71)); lia. }
    rewrite Hq, Hr.
    destruct (Z.leb_spec 10 (Z.of_nat n mod 71)); lia.
Qed.

(** X5: on the module as it is, when the loop classifies [pulls], the text
    it writes to standard output is, pull by pull, an asterisk before each
    pull whose position in its block of 71 is 10 or more, and a line feed
    after the 71st pull of each block: 61 asterisks and one line feed per
    full block of 71 pulls, none for the first ten pulls of a block. *)
Theorem classify_loop_progress (P : Platform) (fuel : nat)
    (params : list (string * string)) (auth : option (string * string))
    (w w' : World P) (pulls : list json) (sel : pydict) :
  classifies P module_globals fuel params auth w pulls sel w' ->
  exists res tr,
    classify_loop module_globals fuel pulls params auth 0 [] [] w
      = (Ret res, w', tr)
    /\ stdout_of tr = markers_for (length pulls)
    /\ count_text "*" (stdout_of tr)
       = 61 * (Z.of_nat (length pulls) / 71)
         + Z.max 0 (Z.of_nat (length pulls) mod 71 - 10)
    /\ count_text LF (stdout_of tr) = Z.of_nat (length pulls) / 71.
Proof.
  intros Hsel.
  destruct (classify_loop_markers P fuel params auth w w' pulls sel Hsel
              0 [] []) as (res & tr & Hrun & Hout).
  exists res, tr. split; [exact Hrun|].
  fold (markers_for (length pulls)) in Hout. rewrite Hout.
  split; [reflexivity|]. apply markers_for_count.
Qed.

Lemma classify_loop_progress_witness :
  exists res tr,
    classify_loop module_globals 1 (replicate 12 pull2) PARAMS None 0 [] []
        (0 : World hub)
      = (Ret res, 0, tr)
    /\ stdout_of tr = markers_for (length (replicate 12 pull2))
    /\ count_text "*" (stdout_of tr)
       = 61 * (Z.of_nat (length (replicate 12 pull2)) / 71)
         + Z.max 0 (Z.of_nat (length (replicate 12 pull2)) mod 71 - 10)
    /\ count_text LF (stdout_of tr)
       = Z.of_nat (length (replicate 12 pull2)) / 71.
Proof.
  apply (classify_loop_progress hub 1 PARAMS None 0 0 (replicate 12 pull2) []).
  cbn [replicate].
  repeat (eapply classifies_skip; [vm_compute; reflexivity|]).
  apply classifies_nil.
Defined.

(** Twenty pulls: ten asterisks, no line feed.  Seventy-one pulls: 61
    asterisks, then the line feed. *)
Lemma markers_for_twenty :
  markers_for 20 = replicate 10 "*"%string.
Proof. vm_compute. reflexivity. Qed.

Lemma markers_for_block :
  markers_for 71 = replicate 61 "*"%string ++ [LF].
Proof. vm_compute. reflexivity. Qed.

(** ** The mapping [pull_commits] *)

Lemma py_key_eqb_norm (a b : json) :
  py_key_eqb a b = true -> key_norm a = key_norm b.
Proof.
  unfold py_key_eqb.
  destruct (key_norm a) as [| |m|s| |], (key_norm b) as [| |n|t| |];
    try discriminate; intros H.
  - reflexivity.
  - apply Z.eqb_eq in H. congruence.
  - apply String.eqb_eq in H. congruence.
Qed.

Lemma py_key_eqb_left (a b c : json) :
  py_key_eqb a b = true -> py_key_eqb a c = py_key_eqb b c.
Proof.
  intros H. apply py_key_eqb_norm in H. unfold py_key_eqb. rewrite H.
  reflexivity.
Qed.

Lemma py_key_eqb_right (a b c : json) :
  py_key_eqb a b = true -> py_key_eqb c a = py_key_eqb c b.
Proof.
  intros H. apply py_key_eqb_norm in H. unfold py_key_eqb. rewrite H.
  reflexivity.
Qed.

Lemma py_key_eqb_sym (a b : json) : py_key_eqb a b = py_key_eqb b a.
Proof.
  unfold py_key_eqb.
  destruct (key_norm a) as [| |m|s| |], (key_norm b) as [| |n|t| |];
    try reflexivity.
  - apply Z.eqb_sym.
  - apply String.eqb_sym.
Qed.

Lemma py_dict_lookup_assign (k0 k : json) (v : list json) (d : pydict) :
  py_dict_lookup k (dict_assign k0 v d)
  = if py_key_eqb k0 k then Some v else py_dict_lookup k d.
Proof.
  induction d as [|[k' v'] d IH]; cbn [dict_assign py_dict_lookup].
  - reflexivity.
  - destruct (py_key_eqb k' k0) eqn:Hk0; cbn [py_dict_lookup].
    + rewrite (py_key_eqb_left k' k0 k Hk0).
      destruct (py_key_eqb k0 k); reflexivity.
    + rewrite IH. destruct (py_key_eqb k' k) eqn:Hk; [|reflexivity].
      destruct (py_key_eqb k0 k) eqn:Hk0k; [|reflexivity].
      rewrite (py_key_eqb_left k' k k0 Hk), py_key_eqb_sym in Hk0.
      congruence.
Qed.

Lemma forallb_keys_assign (f : json -> bool) (k0 : json) (v : list json)
    (d : pydict) :
  f k0 = true ->
  forallb (fun e => f (fst e)) d = true ->
  forallb (fun e => f (fst e)) (dict_assign k0 v d) = true.
Proof.
  intros Hk0. induction d as [|[k' v'] d IH]; cbn [dict_assign forallb fst].
  - intros _. rewrite Hk0. reflexivity.
  - intros H. apply andb_prop in H as [Hk' Hd].
    destruct (py_key_eqb k' k0); cbn [forallb fst]; rewrite Hk'.
    + exact Hd.
    + exact (IH Hd).
Qed.

Lemma distinct_keys_assign (k0 : json) (v : list json) (d : pydict) :
  distinct_keys d = true -> distinct_keys (dict_assign k0 v d) = true.
Proof.
  induction d as [|[k' v'] d IH]; cbn [dict_assign distinct_keys].
  - intros _. reflexivity.
  - intros H. apply andb_prop in H as [Hk' Hd].
    destruct (py_key_eqb k' k0) eqn:Hk0; cbn [distinct_keys].
    + rewrite Hk', Hd. reflexivity.
    + rewrite (IH Hd), andb_true_r.
      apply (forallb_keys_assign (fun k => negb (py_key_eqb k' k)));
        [rewrite Hk0; reflexivity | exact Hk'].
Qed.

Lemma py_dict_lookup_app (k : json) (a b : pydict) :
  py_dict_lookup k (a ++ b)
  = match py_dict_lookup k a with
    | Some v => Some v
    | None => py_dict_lookup k b
    end.
Proof.
  induction a as [|[k' v'] a IH]; [reflexivity|].
  cbn [app py_dict_lookup]. destruct (py_key_eqb k' k); [reflexivity | exact IH].
Qed.

Lemma assign_all_lookup (entries : pydict) :
  forall d k,
    py_dict_lookup k (assign_all d entries)
    = match py_dict_lookup k (rev entries) with
      | Some v => Some v
      | None => py_dict_lookup k d
      end.
Proof.
  induction entries as [|[k0 v] entries IH]; intros d k; [reflexivity|].
  cbn [assign_all foldl fst snd rev].
  change (foldl _ ?d0 entries) with (assign_all d0 entries).
  rewrite IH, py_dict_lookup_app, py_dict_lookup_assign.
  cbn [py_dict_lookup].
  destruct (py_dict_lookup k (rev entries)); [reflexivity|].
  destruct (py_key_eqb k0 k); reflexivity.
Qed.

Lemma assign_all_distinct_keys (entries : pydict) :
  forall d, distinct_keys d = true ->
            distinct_keys (assign_all d entries) = true.
Proof.
  induction entries as [|[k0 v] entries IH]; intros d Hd; [exact Hd|].
  cbn [assign_all foldl fst snd].
  change (foldl _ ?d0 entries) with (assign_all d0 entries).
  apply IH, distinct_keys_assign, Hd.
Qed.

(** X6: whatever the numbers of the pulls, the mapping the loop builds
    never holds two equal keys, and reading it at a key gives the commits of
    the last accepted pull with that number: when two accepted pulls share
    a number, the commits of the earlier one stay in the flat list but are
    replaced in the mapping. *)
Theorem classify_loop_mapping (P : Platform) (g : gset string) (fuel : nat)
    (params : list (string * string)) (auth : option (string * string))
    (w w' : World P) (pulls : list json) (sel : pydict) :
  classifies P g fuel params auth w pulls sel w' ->
  exists pull_commits tr,
    classify_loop g fuel pulls params auth 0 [] [] w
      = (Ret (concat (map snd sel), pull_commits), w', tr)
    /\ distinct_keys pull_commits = true
    /\ forall k, py_dict_lookup k pull_commits = py_dict_lookup k (rev sel).
Proof.
  intros Hsel.
  destruct (classify_loop_classifies P g fuel params auth w w' pulls sel Hsel
              0 [] []) as (tr & Htr).
  exists (assign_all [] sel), tr. split; [exact Htr|]. split.
  - apply assign_all_distinct_keys. reflexivity.
  - intros k. rewrite assign_all_lookup.
    destruct (py_dict_lookup k (rev sel)); reflexivity.
Qed.

Lemma classify_loop_mapping_witness :
  exists pull_commits tr,
    classify_loop module_globals 1 [pull1; pull1_again] PARAMS None 0 [] []
        (0 : World hub)
      = (Ret (concat (map snd [(JInt 1, [JStr "c1"; JStr "c2"]);
                               (JInt 1, [JStr "c3"])]), pull_commits), 0, tr)
    /\ distinct_keys pull_commits = true
    /\ forall k, py_dict_lookup k pull_commits
                 = py_dict_lookup k (rev [(JInt 1, [JStr "c1"; JStr "c2"]);
                                          (JInt 1, [JStr "c3"])]).
Proof.
  apply (classify_loop_mapping hub module_globals 1 PARAMS None 0 0
           [pull1; pull1_again]
           [(JInt 1, [JStr "c1"; JStr "c2"]); (JInt 1, [JStr "c3"])]).
  eapply classifies_take;
    [vm_compute; reflexivity | vm_compute; reflexivity | reflexivity
    | reflexivity |].
  eapply classifies_take;
    [vm_compute; reflexivity | vm_compute; reflexivity | reflexivity
    | reflexivity |].
  apply classifies_nil.
Defined.

(** The run of the witness: three commits returned, one entry dumped. *)
Lemma duplicate_number_run :
  exists tr,
    classify_loop module_globals 1 [pull1; pull1_again] PARAMS None 0 [] []
        (0 : World hub)
    = (Ret ([JStr "c1"; JStr "c2"; JStr "c3"], [(JInt 1, [JStr "c3"])]),
       0, tr).
Proof. eexists. vm_compute. reflexivity. Qed.

(** ** Strings *)

Lemma string_app_cons (x : ascii) (a b : string) :
  String x a +:+ b = String x (a +:+ b).
Proof. reflexivity. Qed.

Lemma string_app_nil_l (a : string) : EmptyString +:+ a = a.
Proof. reflexivity. Qed.

Lemma string_app_assoc (a b c : string) : (a +:+ b) +:+ c = a +:+ b +:+ c.
Proof.
  induction a as [|x a IH]; [reflexivity|].
  rewrite !string_app_cons, IH. reflexivity.
Qed.

Lemma string_app_nil_r (a : string) : a +:+ EmptyString = a.
Proof.
  induction a as [|x a IH]; [reflexivity|].
  rewrite string_app_cons, IH. reflexivity.
Qed.

(** ** The CSV and text files *)

Lemma string_mem_linesep (P : Platform) (c : ascii) :
  string_mem c (linesep P) = true -> string_mem c (CR +:+ LF) = true.
Proof.
  unfold linesep. destruct (os_nt P); [exact id|].
  unfold CR, LF. rewrite string_app_cons, string_app_nil_l.
  cbn [string_mem]. intros H. rewrite H.
  apply orb_true_r.
Qed.

Lemma csv_field_plain (P : Platform) (field : string) :
  csv_plain field = true -> csv_field (linesep P) field = field.
Proof.
  unfold csv_plain, csv_field. intros H. apply negb_true_iff in H.
  assert (csv_special (linesep P) field = false) as ->; [|reflexivity].
  induction field as [|c rest IH]; [reflexivity|].
  cbn [csv_special] in H |- *.
  destruct (Ascii.eqb c ","); [discriminate|].
  destruct (Ascii.eqb c dquote_char); [discriminate|].
  cbn [orb] in H |- *.
  destruct (string_mem c (CR +:+ LF)) eqn:Hm; [discriminate|].
  cbn [orb] in H. rewrite (IH H), orb_false_r.
  destruct (string_mem c (linesep P)) eqn:Hc; [|reflexivity].
  apply string_mem_linesep in Hc. congruence.
Qed.

Lemma csv_writerow_plain (P : Platform) (p s : json) (owner repo : string) :
  csv_plain (csv_str P p) = true -> csv_plain (csv_str P s) = true ->
  csv_plain owner = true -> csv_plain repo = true ->
  csv_writerow P [p; s; JStr owner; JStr repo]
  = String.concat "," [csv_str P p; csv_str P s; owner; repo] +:+ linesep P.
Proof.
  intros Hp Hs Ho Hr. unfold csv_writerow. cbn [map].
  rewrite !csv_field_plain by assumption.
  change (csv_str P (JStr owner)) with owner.
  change (csv_str P (JStr repo)) with repo.
  rewrite ?csv_field_plain by assumption. reflexivity.
Qed.

Lemma csv_header_row (P : Platform) :
  csv_writerow P [JStr "Pull"; JStr "Commit-SHA"; JStr "Owner"; JStr "Repo"]
  = "Pull,Commit-SHA,Owner,Repo" +:+ linesep P.
Proof.
  unfold csv_writerow. cbn [map].
  rewrite !csv_field_plain by reflexivity. reflexivity.
Qed.

(** X7: for a mapping whose pull numbers and commits, like the owner and
    the repository name, hold no comma, quote, carriage return or line
    feed, the CSV file is the line Pull,Commit-SHA,Owner,Repo followed by
    one unquoted line p,s,owner,repo per pull p and commit s, pulls in
    the order of the mapping and commits in the order of their list, every
    line ended by [os.linesep]. *)
Theorem csv_content_plain (P : Platform) (owner repo : string)
    (pull_commits : pydict) :
  csv_plain owner = true -> csv_plain repo = true ->
  plain_mapping P pull_commits = true ->
  csv_content P owner repo pull_commits
  = "Pull,Commit-SHA,Owner,Repo" +:+ linesep P
    +:+ String.concat EmptyString
          (map (fun row => String.concat "," row +:+ linesep P)
               (csv_rows P owner repo pull_commits)).
Proof.
  intros Ho Hr Hm. unfold csv_content. rewrite csv_header_row.
  rewrite string_app_assoc. do 3 f_equal.
  unfold csv_rows. induction pull_commits as [|[p cs] rest IH];
    [reflexivity|].
  cbn [plain_mapping forallb fst snd] in Hm.
  apply andb_prop in Hm as [Hpcs Hrest]. apply andb_prop in Hpcs as [Hp Hcs].
  cbn [map concat flat_map fst snd]. rewrite map_app, (IH Hrest). f_equal.
  unfold csv_rows_of. cbn [fst snd]. clear IH Hrest.
  induction cs as [|s cs IHcs]; [reflexivity|].
  cbn [forallb] in Hcs. apply andb_prop in Hcs as [Hs Hcs].
  cbn [map]. rewrite (IHcs Hcs).
  rewrite (csv_writerow_plain P p s owner repo Hp Hs Ho Hr). reflexivity.
Qed.

Lemma csv_content_plain_witness :
  csv_content scripted "o" "r" [(JInt 1, [JStr "sha_a"; JStr "sha_b"])]
  = "Pull,Commit-SHA,Owner,Repo" +:+ linesep scripted
    +:+ String.concat EmptyString
          (map (fun row => String.concat "," row +:+ linesep scripted)
               (csv_rows scripted "o" "r"
                  [(JInt 1, [JStr "sha_a"; JStr "sha_b"])])).
Proof.
  apply (csv_content_plain scripted "o" "r"
           [(JInt 1, [JStr "sha_a"; JStr "sha_b"])]);
    vm_compute; reflexivity.
Defined.

(** The file of the witness, written out. *)
Lemma csv_content_example :
  csv_content scripted "o" "r" [(JInt 1, [JStr "sha_a"; JStr "sha_b"])]
  = "Pull,Commit-SHA,Owner,Repo" +:+ LF
    +:+ "1,sha_a,o,r" +:+ LF +:+ "1,sha_b,o,r" +:+ LF.
Proof. vm_compute. reflexivity. Qed.

Lemma text_mode_app (P : Platform) (a b : string) :
  text_mode P (a +:+ b) = text_mode P a +:+ text_mode P b.
Proof.
  induction a as [|c a IH]; [reflexivity|].
  rewrite string_app_cons. cbn [text_mode]. rewrite IH.
  destruct (Ascii.eqb c "010"); [|reflexivity].
  rewrite string_app_assoc. reflexivity.
Qed.

Lemma text_mode_no_line_feed (P : Platform) (s : string) :
  no_line_feed s = true -> text_mode P s = s.
Proof.
  unfold no_line_feed. induction s as [|c s IH]; [reflexivity|].
  cbn [string_mem text_mode]. intros H. apply negb_true_iff in H.
  apply orb_false_iff in H as [Hc Hs].
  rewrite Hc, IH; [reflexivity|]. rewrite Hs. reflexivity.
Qed.

(** X8: when no commit reads, as [str] gives it, with a line feed inside,
    the text file holds one line per returned commit, in order, each ended
    by [os.linesep] (text mode turns the line feed that [format] appends
    into it). *)
Theorem txt_content_lines (P : Platform) (shas : list json) :
  forallb (fun s => no_line_feed (py_str P s)) shas = true ->
  txt_content P shas
  = String.concat EmptyString (map (fun s => py_str P s +:+ linesep P) shas).
Proof.
  intros H. unfold txt_content. f_equal.
  induction shas as [|s shas IH]; [reflexivity|].
  cbn [forallb] in H. apply andb_prop in H as [Hs Hrest].
  cbn [map]. rewrite (IH Hrest), text_mode_app, (text_mode_no_line_feed P _ Hs).
  do 2 f_equal. unfold LF. cbn [text_mode Ascii.eqb Bool.eqb].
  apply string_app_nil_r.
Qed.

Lemma txt_content_lines_witness :
  txt_content scripted [JStr "c1"; JStr "c2"]
  = String.concat EmptyString
      (map (fun s => py_str scripted s +:+ linesep scripted)
           [JStr "c1"; JStr "c2"]).
Proof.
  apply (txt_content_lines scripted [JStr "c1"; JStr "c2"]).
  vm_compute. reflexivity.
Defined.

(** ** [wait_it_out] with [gh_shared] and [sleep] bound *)

Lemma wait_loop_step (P : Platform) (g : gset string) (n : nat) (msg : string)
    (T : Z) (w : World P) :
  "gh_shared" ∈ g -> "sleep" ∈ g -> 60 < T ->
  wait_loop g (S n) msg T PlaceMins w =
    let s := if T >? 240 then 240 else T in
    match wait_loop g n msg (T - 240) PlaceMins (sleep_for P s w) with
    | (o, w', tr) =>
        (o, w',
         EvStdout (gh_shared_NOTE_LABEL P +:+ msg +:+ LF +:+ "      "
                     +:+ pretty (T / 60) +:+ " minutes remaining..." +:+ LF)
         :: EvSleep s :: tr)
    end.
Proof.
  intros Hg Hs HT. cbn [wait_loop]. run_bind.
  destruct (Z.geb_spec T 0); [|lia].
  destruct (Z.gtb_spec T 60); [|lia].
  cbn beta iota zeta. rewrite !lookup_name_bound by assumption.
  unfold format_notice. cbn beta iota. unfold time_sleep.
  assert (((if T >? 240 then 240 else T) <? 0) = false) as ->.
  { destruct (Z.gtb_spec T 240); apply Z.ltb_ge; lia. }
  destruct (wait_loop g n msg (T - 240) PlaceMins _) as [[o w'] tr].
  reflexivity.
Qed.

Lemma wait_loop_completes (P : Platform) (g : gset string) (msg : string)
    (r : Z) (q : nat) :
  "gh_shared" ∈ g -> "sleep" ∈ g -> 60 < r < 240 ->
  forall (n : nat) (w : World P), (q + 2 <= n)%nat ->
  exists tr,
    wait_loop g n msg (240 * Z.of_nat q + r) PlaceMins w
      = (Ret tt, sleep_all P (replicate q 240 ++ [r]) w, tr)
    /\ sleeps_of tr = replicate q 240 ++ [r].
Proof.
  intros Hg Hs Hr. induction q as [|q IH]; intros n w Hn.
  - destruct n as [|[|n]]; [lia | lia |].
    replace (240 * Z.of_nat 0 + r) with r by lia.
    rewrite wait_loop_step by (assumption || lia).
    cbn zeta. cbn [wait_loop].
    destruct (Z.geb_spec (r - 240) 0); [lia|].
    destruct (Z.gtb_spec r 240); [lia|].
    eexists. split; reflexivity.
  - destruct n as [|n]; [lia|].
    rewrite wait_loop_step by (assumption || lia).
    cbn zeta.
    destruct (Z.gtb_spec (240 * Z.of_nat (S q) + r) 240); [|lia].
    replace (240 * Z.of_nat (S q) + r - 240) with (240 * Z.of_nat q + r)
      by lia.
    destruct (IH n (sleep_for P 240 w)) as (tr & -> & Htr); [lia|].
    eexists. split; [reflexivity|].
    cbn [sleeps_of omap]. cbn. f_equal. exact Htr.
Qed.

Lemma wait_loop_format_error (P : Platform) (g : gset string) (msg : string)
    (r : Z) (q : nat) :
  "gh_shared" ∈ g -> "sleep" ∈ g -> 0 <= r <= 60 ->
  forall (n : nat) (w : World P), (q + 1 <= n)%nat ->
  exists tr,
    wait_loop g n msg (240 * Z.of_nat q + r) PlaceMins w
      = (Raise format_error, sleep_all P (replicate q 240) w, tr)
    /\ sleeps_of tr = replicate q 240.
Proof.
  intros Hg Hs Hr. induction q as [|q IH]; intros n w Hn.
  - destruct n as [|n]; [lia|].
    replace (240 * Z.of_nat 0 + r) with r by lia.
    cbn [wait_loop]. run_bind.
    destruct (Z.geb_spec r 0); [|lia].
    destruct (Z.gtb_spec r 60); [lia|].
    cbn beta iota zeta. rewrite lookup_name_bound by assumption.
    eexists. split; reflexivity.
  - destruct n as [|n]; [lia|].
    rewrite wait_loop_step by (assumption || lia).
    cbn zeta.
    destruct (Z.gtb_spec (240 * Z.of_nat (S q) + r) 240) as [Hgt|Hle].
    + replace (240 * Z.of_nat (S q) + r - 240) with (240 * Z.of_nat q + r)
        by lia.
      destruct (IH n (sleep_for P 240 w)) as (tr & -> & Htr); [lia|].
      eexists. split; [reflexivity|].
      cbn [sleeps_of omap]. cbn. f_equal. exact Htr.
    + assert (q = 0%nat /\ r = 0) as [-> ->] by lia.
      change (240 * Z.of_nat 1 + 0) with 240. change (240 - 240) with 0.
      destruct (IH n (sleep_for P 240 w)) as (tr & Hrun & Htr); [lia|].
      change (240 * Z.of_nat 0 + 0) with 0 in Hrun. rewrite Hrun.
      eexists. split; [reflexivity|].
      cbn [sleeps_of omap]. cbn. f_equal. exact Htr.
Qed.

Lemma wait_split (T : Z) :
  0 <= T -> T = 240 * Z.of_nat (Z.to_nat (T / 240)) + T mod 240.
Proof.
  intros HT. rewrite Z2Nat.id by (apply Z.div_pos; lia).
  apply Z.div_mod. lia.
Qed.

Lemma wait_iterations_enough (T : Z) :
  0 <= T -> (Z.to_nat (T / 240) + 2 <= wait_iterations T)%nat.
Proof.
  intros HT. unfold wait_iterations.
  assert (0 <= T / 240) by (apply Z.div_pos; lia).
  rewrite Z2Nat.inj_add by lia. cbn. lia.
Qed.

Lemma sum_replicate (q : nat) (r : Z) :
  foldr Z.add 0 (replicate q 240 ++ [r]) = 240 * Z.of_nat q + r.
Proof.
  induction q as [|q IH]; [cbn; lia|].
  cbn [replicate app foldr]. rewrite IH. lia.
Qed.

Lemma wait_it_out_slept (P : Platform) (g : gset string) (msg : string)
    (W : Z) (w : World P) :
  "gh_shared" ∈ g -> "sleep" ∈ g ->
  0 <= W + 15 -> 60 < (W + 15) mod 240 ->
  exists tr,
    wait_it_out g msg W w
      = (Ret tt,
         sleep_all P (replicate (Z.to_nat ((W + 15) / 240)) 240
                      ++ [(W + 15) mod 240]) w,
         tr)
    /\ sleeps_of tr
       = replicate (Z.to_nat ((W + 15) / 240)) 240 ++ [(W + 15) mod 240]
    /\ foldr Z.add 0 (sleeps_of tr) = W + 15
    /\ Forall (fun s => 0 < s <= 240) (sleeps_of tr)
    /\ last tr = Some (EvStdout (gh_shared_NOTE_LABEL P
                         +:+ "Wait completed, continuing execution..."
                         +:+ LF)).
Proof.
  intros Hg Hs HT Hr.
  pose proof (Z.mod_pos_bound (W + 15) 240 eq_refl) as Hm.
  destruct (wait_loop_completes P g msg ((W + 15) mod 240)
              (Z.to_nat ((W + 15) / 240)) Hg Hs ltac:(lia)
              (wait_iterations (W + 15)) w (wait_iterations_enough _ HT))
    as (tr & Hrun & Htr).
  rewrite <- (wait_split (W + 15) HT) in Hrun.
  exists (tr ++ [EvStdout (gh_shared_NOTE_LABEL P
                   +:+ "Wait completed, continuing execution..." +:+ LF)]).
  split; [|split; [|split; [|split]]].
  - unfold wait_it_out. run_bind. rewrite Hrun. cbn beta iota.
    rewrite lookup_name_bound by assumption. reflexivity.
  - unfold sleeps_of in *. rewrite omap_app, Htr. cbn. apply app_nil_r.
  - unfold sleeps_of in *. rewrite omap_app, Htr. cbn. rewrite app_nil_r.
    rewrite sum_replicate. symmetry. apply wait_split. exact HT.
  - unfold sleeps_of in *. rewrite omap_app, Htr. cbn. rewrite app_nil_r.
    apply Forall_app. split.
    + apply Forall_forall. intros s Hin. apply elem_of_replicate in Hin. lia.
    + constructor; [lia | constructor].
  - apply last_snoc.
Qed.

(** X9: with [gh_shared] and [sleep] bound, a padded wait T = W + 15 whose
    remainder by 240 is above 60 is slept in full: T div 240 sleeps of 240
    seconds and a last one of T mod 240, each at most 240 and T in total;
    the call returns, and the last text it writes is the completion
    notice. *)
Theorem wait_it_out_completes (P : Platform) (g : gset string) (msg : string)
    (W : Z) (w : World P) :
  "gh_shared" ∈ g -> "sleep" ∈ g ->
  0 <= W + 15 -> 60 < (W + 15) mod 240 ->
  exists tr,
    wait_it_out g msg W w
      = (Ret tt,
         sleep_all P (replicate (Z.to_nat ((W + 15) / 240)) 240
                      ++ [(W + 15) mod 240]) w,
         tr)
    /\ sleeps_of tr
       = replicate (Z.to_nat ((W + 15) / 240)) 240 ++ [(W + 15) mod 240]
    /\ foldr Z.add 0 (sleeps_of tr) = W + 15
    /\ Forall (fun s => 0 < s <= 240) (sleeps_of tr)
    /\ last tr = Some (EvStdout (gh_shared_NOTE_LABEL P
                         +:+ "Wait completed, continuing execution..."
                         +:+ LF)).
Proof. exact (wait_it_out_slept P g msg W w). Qed.

Lemma wait_it_out_raises (P : Platform) (g : gset string)
    (msg : string) (W : Z) (w : World P) :
  "gh_shared" ∈ g -> "sleep" ∈ g ->
  0 <= W + 15 -> (W + 15) mod 240 <= 60 ->
  exists tr,
    wait_it_out g msg W w
      = (Raise format_error,
         sleep_all P (replicate (Z.to_nat ((W + 15) / 240)) 240) w, tr)
    /\ sleeps_of tr = replicate (Z.to_nat ((W + 15) / 240)) 240.
Proof.
  intros Hg Hs HT Hr.
  pose proof (Z.mod_pos_bound (W + 15) 240 eq_refl) as Hm.
  pose proof (wait_iterations_enough _ HT) as Hn.
  destruct (wait_loop_format_error P g msg ((W + 15) mod 240)
              (Z.to_nat ((W + 15) / 240)) Hg Hs ltac:(lia)
              (wait_iterations (W + 15)) w ltac:(lia))
    as (tr & Hrun & Htr).
  rewrite <- (wait_split (W + 15) HT) in Hrun.
  exists tr. split; [|exact Htr].
  unfold wait_it_out. run_bind. rewrite Hrun. reflexivity.
Qed.

(** X10: with [gh_shared] and [sleep] bound, a padded wait T = W + 15 whose
    remainder by 240 is at most 60 never completes: after T div 240 sleeps
    of 240 seconds the notice is formatted with [{1:0.2f}] applied to the
    message and [format] raises [ValueError]. *)
Theorem wait_it_out_format_error (P : Platform) (g : gset string)
    (msg : string) (W : Z) (w : World P) :
  "gh_shared" ∈ g -> "sleep" ∈ g ->
  0 <= W + 15 -> (W + 15) mod 240 <= 60 ->
  exists tr,
    wait_it_out g msg W w
      = (Raise format_error,
         sleep_all P (replicate (Z.to_nat ((W + 15) / 240)) 240) w, tr)
    /\ sleeps_of tr = replicate (Z.to_nat ((W + 15) / 240)) 240.
Proof. exact (wait_it_out_raises P g msg W w). Qed.

Lemma patched_gh_shared : "gh_shared" ∈ patched_globals.
Proof. apply (bool_decide_unpack _). vm_compute. exact I. Qed.

Lemma patched_sleep : "sleep" ∈ patched_globals.
Proof. apply (bool_decide_unpack _). vm_compute. exact I. Qed.


Lemma wait_it_out_completes_witness :
  exists tr,
    wait_it_out patched_globals "Rate Limit Hit" 385
        (mk_lab [] 0 : World scripted)
      = (Ret tt,
         sleep_all scripted (replicate (Z.to_nat ((385 + 15) / 240)) 240
                             ++ [(385 + 15) mod 240]) (mk_lab [] 0),
         tr)
    /\ sleeps_of tr
       = replicate (Z.to_nat ((385 + 15) / 240)) 240 ++ [(385 + 15) mod 240]
    /\ foldr Z.add 0 (sleeps_of tr) = 385 + 15
    /\ Forall (fun s => 0 < s <= 240) (sleeps_of tr)
    /\ last tr = Some (EvStdout (gh_shared_NOTE_LABEL scripted
                         +:+ "Wait completed, continuing execution..."
                         +:+ LF)).
Proof.
  apply (wait_it_out_completes scripted patched_globals "Rate Limit Hit" 385
           (mk_lab [] 0) patched_gh_shared patched_sleep);
    vm_compute; [discriminate | reflexivity].
Defined.

Lemma wait_it_out_format_error_witness :
  exists tr,
    wait_it_out patched_globals "Rate Limit Hit" 5
        (mk_lab [] 0 : World scripted)
      = (Raise format_error,
         sleep_all scripted (replicate (Z.to_nat ((5 + 15) / 240)) 240)
           (mk_lab [] 0), tr)
    /\ sleeps_of tr = replicate (Z.to_nat ((5 + 15) / 240)) 240.
Proof.
  apply (wait_it_out_format_error scripted patched_globals "Rate Limit Hit" 5
           (mk_lab [] 0) patched_gh_shared patched_sleep);
    vm_compute; discriminate.
Defined.

(** ** [get_page] with the missing names bound *)










(** ** Splitting and slicing strings *)

Lemma string_mem_app (c : ascii) (a b : string) :
  string_mem c (a +:+ b) = string_mem c a || string_mem c b.
Proof.
  induction a as [|x a IH]; [reflexivity|].
  rewrite string_app_cons. cbn [string_mem]. rewrite IH, orb_assoc.
  reflexivity.
Qed.

Lemma string_length_app (a b : string) :
  String.length (a +:+ b) = (String.length a + String.length b)%nat.
Proof.
  induction a as [|x a IH]; [reflexivity|].
  rewrite string_app_cons. cbn [String.length]. rewrite IH. reflexivity.
Qed.

Lemma py_split_none (sep : ascii) (s : string) :
  string_mem sep s = false -> py_split sep s = [s].
Proof.
  induction s as [|c s IH]; [reflexivity|].
  cbn [string_mem py_split]. intros H. apply orb_false_iff in H as [Hc Hs].
  rewrite Hc, (IH Hs). reflexivity.
Qed.

Lemma py_split_app (sep : ascii) (a b : string) :
  string_mem sep a = false ->
  py_split sep (a +:+ String sep b) = a :: py_split sep b.
Proof.
  induction a as [|c a IH]; intros H.
  - rewrite string_app_nil_l. cbn [py_split]. rewrite Ascii.eqb_refl.
    reflexivity.
  - cbn [string_mem] in H. apply orb_false_iff in H as [Hc Ha].
    rewrite string_app_cons. cbn [py_split]. rewrite Hc, (IH Ha).
    reflexivity.
Qed.

Lemma substring_skip (a b : string) (n : nat) :
  substring (String.length a) n (a +:+ b) = substring 0 n b.
Proof.
  induction a as [|x a IH]; [reflexivity|].
  rewrite string_app_cons. cbn [String.length substring]. exact IH.
Qed.

Lemma substring_prefix (b c : string) :
  substring 0 (String.length b) (b +:+ c) = b.
Proof.
  induction b as [|x b IH].
  - rewrite string_app_nil_l. destruct c; reflexivity.
  - rewrite string_app_cons. cbn [String.length substring]. rewrite IH.
    reflexivity.
Qed.

Lemma slice_to_last_middle (a b : string) (x : ascii) :
  slice_to_last (String.length a) (a +:+ b +:+ String x EmptyString) = b.
Proof.
  unfold slice_to_last. rewrite !string_length_app. cbn [String.length].
  replace (String.length a + (String.length b + 1) - 1 - String.length a)%nat
    with (String.length b) by lia.
  rewrite substring_skip. apply substring_prefix.
Qed.

Lemma py_index_skip (c : ascii) (a b : string) :
  string_mem c a = false ->
  py_index c (a +:+ String c b) = Some (String.length a).
Proof.
  induction a as [|x a IH]; intros H.
  - rewrite string_app_nil_l. cbn [py_index]. rewrite Ascii.eqb_refl.
    reflexivity.
  - cbn [string_mem] in H. apply orb_false_iff in H as [Hx Ha].
    rewrite string_app_cons. cbn [py_index]. rewrite Hx, (IH Ha).
    reflexivity.
Qed.

Lemma py_split_cons (sep c : ascii) (s : string) :
  Ascii.eqb c sep = false ->
  exists w ws, py_split sep s = w :: ws
               /\ py_split sep (String c s) = String c w :: ws.
Proof.
  intros Hc. cbn [py_split]. rewrite Hc.
  destruct s as [|d s]; [eexists _, _; split; reflexivity|].
  cbn [py_split]. destruct (Ascii.eqb d sep).
  - eexists _, _. split; reflexivity.
  - destruct (py_split sep s) as [|w ws]; eexists _, _; split; reflexivity.
Qed.

Lemma rel_split (pad url name : string) :
  pad +:+ rel url name
  = (pad +:+ "<" +:+ url +:+ ">")
    +:+ String ";" (" rel=" +:+ DQUOTE +:+ name +:+ DQUOTE).
Proof. unfold rel. rewrite !string_app_assoc. reflexivity. Qed.

Lemma link_entry_rel (pad url name : string) :
  string_mem ";" pad = false -> string_mem "<" pad = false ->
  string_mem ";" url = false -> string_mem ";" name = false ->
  link_entry (pad +:+ rel url name) = Ret (name, url).
Proof.
  intros Hpad Hlt Hurl Hname. unfold link_entry.
  rewrite rel_split, py_split_app, py_split_none.
  - assert (pad +:+ "<" +:+ url +:+ ">" = pad +:+ String "<" (url +:+ ">"))
      as Href by reflexivity.
    rewrite Href at 1. rewrite (py_index_skip "<" pad _ Hlt).
    f_equal. f_equal.
    + exact (slice_to_last_middle (" rel=" +:+ DQUOTE) name dquote_char).
    + assert (S (String.length pad) = String.length (pad +:+ "<")) as ->.
      { rewrite string_length_app. cbn. lia. }
      rewrite <- (string_app_assoc pad "<").
      exact (slice_to_last_middle (pad +:+ "<") url ">").
  - rewrite !string_mem_app, Hname. reflexivity.
  - rewrite !string_mem_app, Hpad, Hurl. reflexivity.
Qed.

Lemma rel_no_comma (url name : string) :
  string_mem "," url = false -> string_mem "," name = false ->
  string_mem "," (rel url name) = false.
Proof.
  intros Hu Hn. unfold rel. rewrite !string_mem_app, Hu, Hn. reflexivity.
Qed.

Lemma py_split_concat (e : string) (es : list string) :
  forallb (fun x => negb (string_mem "," x)) (e :: es) = true ->
  py_split "," (String.concat ", " (e :: es))
  = e :: map (fun x => " " +:+ x) es.
Proof.
  revert e. induction es as [|e2 es IH]; intros e H;
    cbn [forallb] in H; apply andb_prop in H as [He Hes];
    apply negb_true_iff in He.
  - cbn [String.concat map]. apply py_split_none. exact He.
  - change (String.concat ", " (e :: e2 :: es))
      with (e +:+ String "," (String " " (String.concat ", " (e2 :: es)))).
    rewrite (py_split_app "," e _ He). f_equal.
    destruct (py_split_cons "," " " (String.concat ", " (e2 :: es)) eq_refl)
      as (w & ws & Hsplit & ->).
    rewrite (IH e2 Hes) in Hsplit. injection Hsplit as <- <-. reflexivity.
Qed.

Lemma link_entries_rels (pad : string) (links : list (string * string)) :
  string_mem ";" pad = false -> string_mem "<" pad = false ->
  forallb (fun l => no_separator (fst l) && no_separator (snd l)) links = true ->
  link_entries (map (fun l => pad +:+ rel (snd l) (fst l)) links) = Ret links.
Proof.
  intros Hpad Hlt. induction links as [|[n u] links IH]; [reflexivity|].
  cbn [forallb fst snd]. intros H. apply andb_prop in H as [Hnu Hrest].
  apply andb_prop in Hnu as [Hn Hu]. unfold no_separator in Hn, Hu.
  apply andb_prop in Hn as [_ Hn]. apply andb_prop in Hu as [_ Hu].
  apply negb_true_iff in Hn, Hu.
  cbn [map link_entries fst snd].
  rewrite (link_entry_rel pad u n Hpad Hlt Hu Hn). cbn.
  rewrite (IH Hrest). reflexivity.
Qed.

(** X13: a link header written as GitHub writes it, one or more entries
    [<url>; rel="name"] separated by a comma and a space, with no comma or
    semicolon inside a URL or a name, is read back by [download_pulls] as
    the dict of those relations: every name mapped to its URL (for a
    repeated name, the last URL). *)
Theorem parse_link_header (links : list (string * string)) :
  links <> [] ->
  forallb (fun l => no_separator (fst l) && no_separator (snd l)) links = true ->
  parse_link (link_header links) = Ret (py_dict_of links).
Proof.
  intros Hne Hok. destruct links as [|[n u] links]; [done|]. clear Hne.
  unfold parse_link, link_header. cbn [map fst snd].
  rewrite py_split_concat.
  - rewrite map_map.
    pose proof Hok as Hok'. cbn [forallb fst snd] in Hok'.
    apply andb_prop in Hok' as [Hnu Hrest].
    apply andb_prop in Hnu as [Hn Hu]. unfold no_separator in Hn, Hu.
    apply andb_prop in Hn as [_ Hn]. apply andb_prop in Hu as [_ Hu].
    apply negb_true_iff in Hn, Hu.
    cbn [link_entries].
    rewrite <- (string_app_nil_l (rel u n)).
    rewrite (link_entry_rel "" u n eq_refl eq_refl Hu Hn). cbn.
    rewrite (link_entries_rels " " links eq_refl eq_refl Hrest). reflexivity.
  - clear -Hok. change (rel u n :: map _ links)
      with (map (fun l => rel (snd l) (fst l)) ((n, u) :: links)).
    induction ((n, u) :: links) as [|[n' u'] l IH]; [reflexivity|].
    cbn [forallb fst snd map] in Hok |- *.
    apply andb_prop in Hok as [Hnu Hrest].
    apply andb_prop in Hnu as [Hn Hu]. unfold no_separator in Hn, Hu.
    apply andb_prop in Hn as [Hn _]. apply andb_prop in Hu as [Hu _].
    apply negb_true_iff in Hn, Hu.
    rewrite (rel_no_comma u' n' Hu Hn), (IH Hrest). reflexivity.
Qed.

Lemma py_split_first (sep c : ascii) (s : string) :
  string_mem c s = false ->
  exists p ps, py_split sep s = p :: ps /\ string_mem c p = false.
Proof.
  induction s as [|x s IH]; intros H.
  - eexists _, _. split; reflexivity.
  - cbn [string_mem] in H. apply orb_false_iff in H as [Hx Hs].
    destruct (IH Hs) as (p & ps & Hsplit & Hp).
    cbn [py_split]. destruct (Ascii.eqb x sep).
    + eexists _, _. split; reflexivity.
    + rewrite Hsplit. eexists _, _. split; [reflexivity|].
      cbn [string_mem]. rewrite Hx, Hp. reflexivity.
Qed.

Lemma parse_link_no_semicolon (header : string) :
  string_mem ";" header = false ->
  parse_link header = Raise (ValueError "wrong number of values to unpack").
Proof.
  intros H. unfold parse_link.
  destruct (py_split_first "," ";" header H) as (p & ps & -> & Hp).
  cbn [link_entries]. unfold link_entry. rewrite (py_split_none ";" p Hp).
  reflexivity.
Qed.

(** X14: a page that is accepted (200, requests left, a JSON list) but
    whose link header holds no semicolon, the empty header included, makes
    [download_pulls] raise [ValueError] while unpacking the header, after
    the one request: the records of the page are not returned. *)
Theorem download_pulls_bad_link (P : Platform) (g : gset string) (fuel : nat)
    (url : string) (params : list (string * string))
    (auth : option (string * string)) (w w' : World P) (r : response)
    (records : list json) (header : string) :
  http_get P (mk_request url params auth) w = (inr r, w') ->
  page_of r records ->
  headers r !! "link" = Some header ->
  string_mem ";" header = false ->
  exists tr,
    download_pulls g (S fuel) url params auth w
      = (Raise (ValueError "wrong number of values to unpack"), w', tr)
    /\ requests_of tr = [mk_request url params auth].
Proof.
  intros Hget (Hs & (v & Hv & Hv0) & Hb) Hlink Hsemi.
  unfold download_pulls. cbn [download_loop].
  unfold mbind at 1. unfold M_bind at 1.
  rewrite (get_page_passes P g fuel url params auth w w' r v Hget Hv Hv0).
  rewrite Hs. cbn [Z.eqb Pos.eqb]. run_bind.
  unfold response_json, py_iter. rewrite Hb. cbn beta iota.
  unfold next_url. rewrite Hlink, (parse_link_no_semicolon header Hsemi).
  cbn. eexists. split; reflexivity.
Qed.

Lemma parse_link_header_witness :
  parse_link (link_header [("next", page2_url); ("last", page2_url)]%string)
  = Ret (py_dict_of [("next", page2_url); ("last", page2_url)]%string).
Proof.
  apply (parse_link_header [("next", page2_url); ("last", page2_url)]%string);
    [discriminate | vm_compute; reflexivity].
Defined.

Lemma download_pulls_bad_link_witness :
  exists tr,
    download_pulls module_globals 1 pulls_url PARAMS None
        (mk_lab [bare_link_page] 0 : World scripted)
      = (Raise (ValueError "wrong number of values to unpack"),
         mk_lab [] 0, tr)
    /\ requests_of tr = [mk_request pulls_url PARAMS None].
Proof.
  apply (download_pulls_bad_link scripted module_globals 0 pulls_url PARAMS
           None (mk_lab [bare_link_page] 0) (mk_lab [] 0) bare_link_page
           [JInt 1] ("<" +:+ page2_url +:+ ">")).
  - reflexivity.
  - split; [reflexivity|]. split; [|reflexivity].
    exists "4999". split; [vm_compute; reflexivity | discriminate].
  - vm_compute. reflexivity.
  - vm_compute. reflexivity.
Defined.

(** ** [get_commits_by_url] and its callers *)

Lemma commit_shas_of_shas (commits shas : list json) :
  Forall2 has_sha commits shas -> commit_shas_of commits = Ret shas.
Proof.
  induction 1 as [|c sha commits shas Hc _ IH]; [reflexivity|].
  cbn [commit_shas_of]. unfold has_sha in Hc. rewrite Hc. cbn.
  rewrite IH. reflexivity.
Qed.

Lemma get_commits_by_url_run (P : Platform) (g : gset string) (fuel : nat)
    (u : string) (params : list (string * string))
    (auth : option (string * string)) (w w' : World P) (r : response)
    (commits : list json) :
  http_get P (mk_request u params auth) w = (inr r, w') ->
  delivers r (JList commits) ->
  get_commits_by_url g (S fuel) u params auth w
  = (commit_shas_of commits, w', [EvGet (mk_request u params auth)]).
Proof.
  intros Hget Hdel. unfold get_commits_by_url. run_bind.
  rewrite (get_page_delivers P g fuel u params auth w w' r _ Hget Hdel).
  unfold response_json.
  assert (body r = Some (JList commits)) as -> by apply Hdel.
  cbn. destruct (commit_shas_of commits); reflexivity.
Qed.

(** X15: when the network answers the commits URL with a 200 that has
    requests left and a JSON list of commits, each with a [sha],
    [get_commits_by_url] returns those hashes in the order of the list,
    with one request; [get_commits_by_pull] does the same for a pull whose
    [commits_url] is that URL, and [get_commits_by_pull_num] for the
    number, owner and repository whose URL under the API base it is. *)
Theorem get_commits_shas (P : Platform) (g : gset string) (fuel : nat)
    (u : string) (params : list (string * string))
    (auth : option (string * string)) (w w' : World P) (r : response)
    (commits shas : list json) :
  http_get P (mk_request u params auth) w = (inr r, w') ->
  delivers r (JList commits) ->
  Forall2 has_sha commits shas ->
  get_commits_by_url g (S fuel) u params auth w
    = (Ret shas, w', [EvGet (mk_request u params auth)])
  /\ (forall pull,
        py_getitem pull "commits_url" = Ret (JStr u) ->
        get_commits_by_pull g (S fuel) pull params auth w
          = (Ret shas, w', [EvGet (mk_request u params auth)]))
  /\ (forall n owner repo,
        u = REPO_BASE +:+ owner +:+ "/" +:+ repo +:+ "/pulls/" +:+ pretty n
              +:+ "/commits" ->
        get_commits_by_pull_num g (S fuel) n owner repo params auth w
          = (Ret shas, w', [EvGet (mk_request u params auth)])).
Proof.
  intros Hget Hdel Hshas.
  pose proof (get_commits_by_url_run P g fuel u params auth w w' r commits
                Hget Hdel) as Hrun.
  rewrite (commit_shas_of_shas commits shas Hshas) in Hrun.
  split; [exact Hrun|]. split.
  - intros pull Hurl. unfold get_commits_by_pull. run_bind. rewrite Hurl.
    cbn [as_url]. cbn beta iota. rewrite Hrun. reflexivity.
  - intros n owner repo ->. unfold get_commits_by_pull_num. exact Hrun.
Qed.

Lemma get_commits_shas_witness :
  get_commits_by_url module_globals 1 commits1_url PARAMS None (0 : World hub)
    = (Ret [JStr "c1"; JStr "c2"], 0,
       [EvGet (mk_request commits1_url PARAMS None)])
  /\ (forall pull,
        py_getitem pull "commits_url" = Ret (JStr commits1_url) ->
        get_commits_by_pull module_globals 1 pull PARAMS None (0 : World hub)
          = (Ret [JStr "c1"; JStr "c2"], 0,
             [EvGet (mk_request commits1_url PARAMS None)]))
  /\ (forall n owner repo,
        commits1_url
          = REPO_BASE +:+ owner +:+ "/" +:+ repo +:+ "/pulls/" +:+ pretty n
              +:+ "/commits" ->
        get_commits_by_pull_num module_globals 1 n owner repo PARAMS None
            (0 : World hub)
          = (Ret [JStr "c1"; JStr "c2"], 0,
             [EvGet (mk_request commits1_url PARAMS None)])).
Proof.
  apply (get_commits_shas hub module_globals 0 commits1_url PARAMS None 0 0
           (resp 200 open_headers (Some (JList [commit "c1"; commit "c2"])))
           [commit "c1"; commit "c2"] [JStr "c1"; JStr "c2"]).
  - reflexivity.
  - split; [reflexivity|]. split; [|reflexivity].
    exists "4999". split; [vm_compute; reflexivity | discriminate].
  - repeat constructor.
Defined.

(** X16: the first commit of the answer that cannot be indexed by [sha] (a
    dict without the key, or not a dict) ends [get_commits_by_url] in that
    exception, [KeyError] for a missing key; the hashes read before it are
    not returned. *)
Theorem get_commits_missing_sha (P : Platform) (g : gset string) (fuel : nat)
    (u : string) (params : list (string * string))
    (auth : option (string * string)) (w w' : World P) (r : response)
    (before after shas : list json) (c : json) (e : exn) :
  http_get P (mk_request u params auth) w = (inr r, w') ->
  delivers r (JList (before ++ c :: after)) ->
  Forall2 has_sha before shas ->
  py_getitem c "sha" = Raise e ->
  get_commits_by_url g (S fuel) u params auth w
    = (Raise e, w', [EvGet (mk_request u params auth)])
  /\ (forall fields, c = JDict fields -> e = KeyError "sha").
Proof.
  intros Hget Hdel Hshas Hc. split.
  - rewrite (get_commits_by_url_run P g fuel u params auth w w' r _ Hget Hdel).
    do 2 f_equal. clear -Hshas Hc.
    induction Hshas as [|b sha before shas Hb _ IH].
    + cbn [app commit_shas_of]. rewrite Hc. reflexivity.
    + cbn [app commit_shas_of]. unfold has_sha in Hb. rewrite Hb. cbn.
      rewrite IH. reflexivity.
  - intros fields ->. cbn in Hc.
    destruct (dict_lookup "sha" fields); [discriminate|]. congruence.
Qed.

Lemma get_commits_missing_sha_witness :
  get_commits_by_url module_globals 1 commits1_url PARAMS None
      (mk_lab [resp 200 open_headers
                 (Some (JList [commit "c1"; JDict [("url", JStr "u")]]))] 0
         : World scripted)
    = (Raise (KeyError "sha"), mk_lab [] 0,
       [EvGet (mk_request commits1_url PARAMS None)])
  /\ (forall fields,
        JDict [("url", JStr "u")]%string = JDict fields ->
        KeyError "sha" = KeyError "sha").
Proof.
  apply (get_commits_missing_sha scripted module_globals 0 commits1_url PARAMS
           None
           (mk_lab [resp 200 open_headers
                      (Some (JList [commit "c1"; JDict [("url", JStr "u")]]))]
                   0)
           (mk_lab [] 0)
           (resp 200 open_headers
              (Some (JList [commit "c1"; JDict [("url", JStr "u")]])))
           [commit "c1"] [] [JStr "c1"] (JDict [("url", JStr "u")])
           (KeyError "sha")).
  - reflexivity.
  - split; [reflexivity|]. split; [|reflexivity].
    exists "4999". split; [vm_compute; reflexivity | discriminate].
  - repeat constructor.
  - reflexivity.
Defined.

(** ** A download that breaks off *)

Lemma download_loop_breaks (P : Platform) (g : gset string)
    (params : list (string * string)) (auth : option (string * string))
    (w w1 w2 : World P) (url pending : string)
    (pages : list (response * list json)) (r : response) (h : string) :
  serves_until P params auth w url pages pending w1 ->
  http_get P (mk_request pending params auth) w1 = (inr r, w2) ->
  headers r !! "x-ratelimit-remaining" = Some h -> h ≠ "0" ->
  status_code r ≠ 200 ->
  forall fuel acc total, (length pages < fuel)%nat ->
  exists tr,
    download_loop g fuel (Some url) params auth acc total w
      = (Raise (StatusException (status_code r)), w2, tr)
    /\ length (requests_of tr) = S (length pages)
    /\ last (requests_of tr) = Some (mk_request pending params auth).
Proof.
  intros Hs Hget Hh Hne Hst.
  induction Hs as [w url
                  | w url r1 records w1' next pages pending w1 Hget1 Hpage
                      Hlink Hrest IH];
    intros fuel acc total Hfuel;
    (destruct fuel as [|fuel]; [cbn in Hfuel; lia|]).
  - cbn [download_loop]. unfold mbind at 1. unfold M_bind at 1.
    rewrite (get_page_passes P g fuel url params auth w w2 r h Hget Hh Hne).
    destruct (Z.eqb_spec (status_code r) 200) as [|_]; [done|].
    eexists. split; [reflexivity|]. split; reflexivity.
  - rewrite (download_loop_page P g fuel url params auth acc total w w1' r1
               records (Some next) Hget1 Hpage
               (next_url_links_to r1 next Hlink)).
    cbn zeta.
    destruct (IH Hget fuel (acc ++ records)
                (total + Z.of_nat (length records)))
      as (tr & -> & Hlen & Hlast).
    { cbn in Hfuel. lia. }
    eexists. split; [reflexivity|]. split.
    + cbn [requests_of omap]. cbn. f_equal. exact Hlen.
    + cbn [requests_of omap]. cbn.
      change (omap _ tr) with (requests_of tr).
      destruct (requests_of tr) as [|rq rqs]; [discriminate Hlen|].
      exact Hlast.
Qed.

(** X17: when the network serves any number of accepted pages, each linking
    to the next, and then answers the pending URL with a status other than
    200, [download_pulls] raises [Exception(status)]: the records of the
    pages read so far are discarded, and the failed request is the last one
    sent. *)
Theorem download_pulls_aborts (P : Platform) (g : gset string) (fuel : nat)
    (params : list (string * string)) (auth : option (string * string))
    (w w1 w2 : World P) (url pending : string)
    (pages : list (response * list json)) (r : response) (h : string) :
  serves_until P params auth w url pages pending w1 ->
  http_get P (mk_request pending params auth) w1 = (inr r, w2) ->
  headers r !! "x-ratelimit-remaining" = Some h -> h ≠ "0" ->
  status_code r ≠ 200 ->
  (length pages < fuel)%nat ->
  exists tr,
    download_pulls g fuel url params auth w
      = (Raise (StatusException (status_code r)), w2, tr)
    /\ length (requests_of tr) = S (length pages)
    /\ last (requests_of tr) = Some (mk_request pending params auth).
Proof.
  intros Hs Hget Hh Hne Hst Hfuel. unfold download_pulls.
  exact (download_loop_breaks P g params auth w w1 w2 url pending pages r h
           Hs Hget Hh Hne Hst fuel [] 0 Hfuel).
Qed.

Lemma download_pulls_aborts_witness :
  exists tr,
    download_pulls module_globals 2 pulls_url PARAMS None
        (mk_lab [first_page; resp 502 open_headers None] 0 : World scripted)
      = (Raise (StatusException (status_code (resp 502 open_headers None))),
         mk_lab [] 0, tr)
    /\ length (requests_of tr) = S (length [(first_page, [JInt 1; JInt 2])])
    /\ last (requests_of tr) = Some (mk_request page2_url PARAMS None).
Proof.
  apply (download_pulls_aborts scripted module_globals 2 PARAMS None
           (mk_lab [first_page; resp 502 open_headers None] 0)
           (mk_lab [resp 502 open_headers None] 0) (mk_lab [] 0)
           pulls_url page2_url [(first_page, [JInt 1; JInt 2])]
           (resp 502 open_headers None) "4999").
  - eapply serves_until_next with (w1 := mk_lab [resp 502 open_headers None] 0).
    + reflexivity.
    + split; [reflexivity|]. split; [|reflexivity].
      exists "4999". split; [vm_compute; reflexivity | discriminate].
    + eexists _, _. split; [vm_compute; reflexivity|].
      split; [vm_compute; reflexivity|].
      split; [eexists; vm_compute; reflexivity | vm_compute; reflexivity].
    + apply serves_until_here.
  - reflexivity.
  - vm_compute. reflexivity.
  - discriminate.
  - discriminate.
  - cbn. lia.
Defined.

(** ** What writes a file *)





















(** ** The requests of a whole run *)





(** ** [is_defect] on labels it cannot read *)

Lemma label_names_of_raises (before after : list json) (names : list string)
    (l : json) (e : exn) :
  Forall2 label_named before names ->
  py_getitem l "name" = Raise e ->
  label_names_of (before ++ l :: after) = Raise e.
Proof.
  intros Hnames Hl. induction Hnames as [|b n before names Hb _ IH].
  - cbn [app label_names_of]. rewrite Hl. reflexivity.
  - cbn [app label_names_of]. unfold label_named in Hb. rewrite Hb. cbn.
    rewrite IH. reflexivity.
Qed.

(** X20: when the issue of a pull is fetched and one of its labels cannot
    be indexed by [name] (a label without the key gives [KeyError]),
    [is_defect] ends in that exception after its one request, even if a
    label before it names a defect. *)
Theorem is_defect_unnamed_label (P : Platform) (g : gset string) (fuel : nat)
    (pull : json) (u : string) (params : list (string * string))
    (auth : option (string * string)) (w w' : World P) (r : response)
    (fields : list (string * json)) (before after : list json)
    (names : list string) (l : json) (e : exn) :
  py_getitem pull "issue_url" = Ret (JStr u) ->
  http_get P (mk_request u params auth) w = (inr r, w') ->
  delivers r (JDict fields) ->
  dict_lookup "labels" fields = Some (JList (before ++ l :: after)) ->
  Forall2 label_named before names ->
  py_getitem l "name" = Raise e ->
  is_defect g (S fuel) pull params auth w
    = (Raise e, w', [EvGet (mk_request u params auth)])
  /\ (forall label_fields, l = JDict label_fields -> e = KeyError "name").
Proof.
  intros Hurl Hget Hdel Hlab Hnames Hl. split.
  - unfold is_defect. run_bind. rewrite Hurl. cbn [as_url]. cbn beta iota.
    rewrite (get_page_delivers P g fuel u params auth w w' r _ Hget Hdel).
    unfold response_json.
    assert (body r = Some (JDict fields)) as -> by apply Hdel.
    cbn beta iota. cbn [py_dict_get]. rewrite Hlab. cbn [py_iter].
    cbn beta iota.
    rewrite (label_names_of_raises before after names l e Hnames Hl).
    reflexivity.
  - intros label_fields ->. cbn in Hl.
    destruct (dict_lookup "name" label_fields); [discriminate|]. congruence.
Qed.

Lemma is_defect_unnamed_label_witness :
  is_defect module_globals 1 pull1 PARAMS None
      (mk_lab [resp 200 open_headers
                 (Some (JDict [("labels",
                                JList [label "bug"; JDict [("id", JInt 9)]])]))]
              0 : World scripted)
    = (Raise (KeyError "name"), mk_lab [] 0,
       [EvGet (mk_request issue1_url PARAMS None)])
  /\ (forall label_fields,
        JDict [("id", JInt 9)]%string = JDict label_fields ->
        KeyError "name" = KeyError "name").
Proof.
  apply (is_defect_unnamed_label scripted module_globals 0 pull1 issue1_url
           PARAMS None
           (mk_lab [resp 200 open_headers
                      (Some (JDict [("labels",
                                     JList [label "bug";
                                            JDict [("id", JInt 9)]])]))] 0)
           (mk_lab [] 0)
           (resp 200 open_headers
              (Some (JDict [("labels",
                             JList [label "bug"; JDict [("id", JInt 9)]])])))
           [("labels", JList [label "bug"; JDict [("id", JInt 9)]])]%string
           [label "bug"] [] ["bug"%string] (JDict [("id", JInt 9)])
           (KeyError "name")).
  - reflexivity.
  - reflexivity.
  - split; [reflexivity|]. split; [|reflexivity].
    exists "4999". split; [vm_compute; reflexivity | discriminate].
  - reflexivity.
  - repeat constructor.
  - reflexivity.
Defined.

(** ** [get_auth] *)

(** X21: [get_auth] returns the pair of the [User] and [Pwd] options
    exactly when the configuration file is read and its [DEFAULT] section
    has both options with a value; the only text on standard error is then
    the note naming the file. *)
Theorem get_auth_returns (config_read : config_reader) (path u p : string)
    (err : list string) :
  get_auth config_read path = (Returns (u, p), err)
  <-> exists cfg,
        config_read path = inr (Some cfg)
        /\ cfg "User" = Some (Some u) /\ cfg "Pwd" = Some (Some p)
        /\ err = [NOTE_LABEL +:+ "Using configuration file: '" +:+ path
                    +:+ "'" +:+ LF].
Proof.
  unfold get_auth, load_config_data, section_getitem. split.
  - intros H. destruct (config_read path) as [e|[cfg|]]; try discriminate H.
    cbn [AuthType_is AuthType_value Z.eqb Pos.eqb] in H.
    destruct (cfg "User") as [[user|]|] eqn:Hu; try discriminate H;
      destruct (cfg "Pwd") as [[pw|]|] eqn:Hp; try discriminate H.
    injection H as <- <- <-. exists cfg. repeat split; assumption.
  - intros (cfg & -> & Hu & Hp & ->).
    cbn [AuthType_is AuthType_value Z.eqb Pos.eqb]. rewrite Hu, Hp.
    reflexivity.
Qed.

(** X22: the ways [get_auth] fails.  A file that cannot be opened ends the
    program with status 1 after the "Unable to open" message.  A file that
    is read but lacks the [User] option, or has it and lacks [Pwd], ends in
    an uncaught [KeyError] for that option, with no error message; the
    "must be specified" message and exit are reached only for an option
    that is present with the value [None]. *)
Theorem get_auth_fails (config_read : config_reader) (path : string) :
  (config_read path = inr None ->
     get_auth config_read path
     = (Exits 1,
        [ERR_LABEL +:+ "Unable to open configuration file: '" +:+ path
           +:+ "'" +:+ LF +:+ EXITING_STR]))
  /\ (forall cfg,
        config_read path = inr (Some cfg) -> cfg "User" = None ->
        get_auth config_read path
        = (Raises (KeyError "User"),
           [NOTE_LABEL +:+ "Using configuration file: '" +:+ path
              +:+ "'" +:+ LF]))
  /\ (forall cfg user,
        config_read path = inr (Some cfg) -> cfg "User" = Some user ->
        cfg "Pwd" = None ->
        get_auth config_read path
        = (Raises (KeyError "Pwd"),
           [NOTE_LABEL +:+ "Using configuration file: '" +:+ path
              +:+ "'" +:+ LF]))
  /\ (forall code err,
        get_auth config_read path = (Exits code, err) ->
        code = 1
        /\ (config_read path = inr None
            \/ exists cfg user pw,
                 config_read path = inr (Some cfg)
                 /\ cfg "User" = Some user /\ cfg "Pwd" = Some pw
                 /\ (user = None \/ pw = None))).
Proof.
  unfold get_auth, load_config_data, section_getitem.
  split; [|split; [|split]].
  - intros ->. reflexivity.
  - intros cfg -> ->. reflexivity.
  - intros cfg user -> -> ->. reflexivity.
  - intros code err H.
    destruct (config_read path) as [e|[cfg|]]; try discriminate H.
    + cbn [AuthType_is AuthType_value Z.eqb Pos.eqb] in H.
      destruct (cfg "User") as [user|] eqn:Hu; try discriminate H.
      destruct (cfg "Pwd") as [pw|] eqn:Hp; try discriminate H.
      destruct user as [u|], pw as [p|]; try discriminate H;
        injection H as <- _; (split; [reflexivity|]);
        right; eexists cfg, _, _; repeat split; eauto.
    + injection H as <- _. split; [reflexivity|]. left. reflexivity.
Qed.

(** The three configurations of [home_config]. *)
Lemma get_auth_examples :
  get_auth home_config "good.ini"
    = (Returns ("alice", "s3cret")%string,
       ["NOTE: Using configuration file: 'good.ini'" +:+ LF])
  /\ get_auth home_config "nopwd.ini"
     = (Raises (KeyError "Pwd"),
        ["NOTE: Using configuration file: 'nopwd.ini'" +:+ LF])
  /\ get_auth home_config "missing.ini"
     = (Exits 1,
        ["ERROR: Unable to open configuration file: 'missing.ini'" +:+ LF
           +:+ "       Exiting..." +:+ LF]).
Proof. repeat split. Qed.
